(** * Airplane ticket management system: the database layer of airline_app.py

    A shallow embedding of class [DatabaseManager] (the SQLite store with its
    two tables, and the methods [add_flight], [search_flights], [book_flight],
    [get_booking] and [cancel_booking]) and of the GUI handlers of class
    [AirlineApp] that call them.

    Modelling conventions.
    - A table is the list of its rows in rowid order; with AUTOINCREMENT keys
      and no explicit ids this is the order of insertion, and it is the order
      in which a query without ORDER BY scans the table.
    - Python ints are mathematical integers [Z].  SQLite integers have 64
      bits: binding a Python int outside that range as a parameter raises
      OverflowError, which no [except sqlite3.Error] of the program catches,
      so the call raises ([Raise]) and neither commits nor rolls back.  The
      integers a table holds are 64-bit, so an int that is a rowid of the
      table, or lies between 0 and an integer of the table, binds.  SQL
      arithmetic on the stored integers is exact, and the AUTOINCREMENT
      counters stay below 2^63 - 1, as in every store the program has built.
    - REAL values and Python floats are binary64 floats ([PrimFloat.float]).
      A NaN is bound as NULL by SQLite, so it violates a NOT NULL column, and
      a REAL column gives a zero back as +0.0 whatever its sign was.
    - A store is the tables as the connection sees them.  A call starts with
      no transaction open; after a call that raised, the store is that view
      with the statements already executed, and a rollback of a later call is
      taken to go back to it.
    - TEXT values and Python strs are [string], one [ascii] per character
      (characters below 256, no NUL), and a LIKE pattern is shorter than the
      50000 bytes SQLite accepts.
    - The methods are modelled on an open connection ([self.conn] is set);
      I/O failures of SQLite are not modelled, constraint failures are.
    - A method that returns [(success, message)] after possibly changing the
      store is a function from the store to the new store and [Return] of
      that pair, or [Raise] of the exception that escapes it.  [get_booking]
      and [select_flight], [select_booking] are the queries, on an id that
      binds. *)

From Stdlib Require Import ZArith List String Ascii Bool Lia.
From Stdlib Require Import Floats DecimalString.
Import ListNotations.
Open Scope Z_scope.

(** ** Python values *)

(** [str(n)] for an int, as an f-string field [{n}] formats it. *)
Definition str (n : Z) : string := NilZero.string_of_int (Z.to_int n).

(** [float(n)] for an int: the nearest binary64 value, ties to even. *)
Definition float_of_int (n : Z) : float :=
  SF2Prim (binary_normalize prec emax n 0 false).

(** What a call gives: the value it returns or the exception that escapes
    it.  The one exception the program lets escape is the OverflowError of
    an int too large for SQLite (or for a float). *)
Inductive exception := OverflowError.

Inductive result (A : Type) : Type :=
| Return (a : A)
| Raise (e : exception).

Arguments Return {A} a.
Arguments Raise {A} e.

(** Truth value of a str: [if s:] holds for a non-empty string. *)
Definition truthy (s : string) : bool :=
  match s with EmptyString => false | String _ _ => true end.

(** ** The two tables

    CREATE TABLE flights (flight_id INTEGER PRIMARY KEY AUTOINCREMENT,
      departure, destination, flight_date, flight_time TEXT NOT NULL,
      price REAL NOT NULL, seats_available INTEGER NOT NULL) *)
Module Flights.
Record row := mk {
  flight_id : Z;
  departure : string;
  destination : string;
  flight_date : string;
  flight_time : string;
  price : float;
  seats_available : Z
}.

Definition set_seats_available (f : row) (n : Z) : row :=
  mk (flight_id f) (departure f) (destination f) (flight_date f)
     (flight_time f) (price f) n.

Definition set_price (f : row) (p : float) : row :=
  mk (flight_id f) (departure f) (destination f) (flight_date f)
     (flight_time f) p (seats_available f).
End Flights.

(** CREATE TABLE bookings (booking_id INTEGER PRIMARY KEY AUTOINCREMENT,
      flight_id INTEGER NOT NULL, passenger_name TEXT NOT NULL,
      num_seats INTEGER NOT NULL, total_price REAL NOT NULL,
      booking_date TEXT DEFAULT CURRENT_DATE,
      FOREIGN KEY (flight_id) REFERENCES flights(flight_id))

    The foreign key is declared but SQLite does not enforce it unless
    PRAGMA foreign_keys is switched on, which the program never does. *)
Module Bookings.
Record row := mk {
  booking_id : Z;
  flight_id : Z;
  passenger_name : string;
  num_seats : Z;
  total_price : float;
  booking_date : string
}.
End Bookings.

(** The connection: both tables, the sqlite_sequence entry of each (the
    largest rowid AUTOINCREMENT has handed out) and last_insert_rowid(). *)
Record database := mkDatabase {
  flights : list Flights.row;
  bookings : list Bookings.row;
  flights_seq : Z;
  bookings_seq : Z;
  last_insert_rowid : Z
}.

Definition empty_db : database := mkDatabase [] [] 0 0 0.

(** ** SQL statements *)

(** An int SQLite can hold, and an int the sqlite3 module can bind for a
    comparison with the rowids of a table: a 64-bit int, as every rowid of
    the table is. *)
Definition int64 (n : Z) : bool :=
  (-9223372036854775808 <=? n) && (n <=? 9223372036854775807).

Definition bindable (n : Z) (rowids : list Z) : bool :=
  int64 n || existsb (Z.eqb n) rowids.

(** What a REAL column gives back for a float stored in it: SQLite keeps a
    float without fractional part as an integer, which loses the sign of
    -0.0. *)
Definition real_column (x : float) : float :=
  if PrimFloat.is_zero x then 0%float else x.

(** The rowid AUTOINCREMENT gives a new row: one more than the largest rowid
    the table holds or has ever handed out. *)
Definition next_rowid (ids : list Z) (seq : Z) : Z :=
  Z.max seq (fold_right Z.max 0 ids) + 1.

(** SELECT ... FROM flights WHERE flight_id = ?, then fetchone(). *)
Definition select_flight (flight_id : Z) (fs : list Flights.row)
  : option Flights.row :=
  find (fun f => Flights.flight_id f =? flight_id) fs.

(** SELECT ... FROM bookings WHERE booking_id = ?, then fetchone(). *)
Definition select_booking (booking_id : Z) (bs : list Bookings.row)
  : option Bookings.row :=
  find (fun b => Bookings.booking_id b =? booking_id) bs.

(** INSERT INTO flights (departure, destination, flight_date, flight_time,
    price, seats_available) VALUES (?, ?, ?, ?, ?, ?).  Binding [seats]
    raises when it has more than 64 bits.  A NaN price is NULL and fails the
    NOT NULL constraint: [inl] is the sqlite3.Error. *)
Definition insert_flight (departure destination date time : string)
    (price : float) (seats : Z) (db : database) : result (string + database) :=
  if negb (int64 seats) then Raise OverflowError
  else if PrimFloat.is_nan price
  then Return (inl "NOT NULL constraint failed: flights.price"%string)
  else
    let id := next_rowid (map Flights.flight_id (flights db)) (flights_seq db) in
    Return
      (inr (mkDatabase
              (flights db ++
                 [Flights.mk id departure destination date time
                    (real_column price) seats])
              (bookings db) id (bookings_seq db) id)).

(** UPDATE flights SET seats_available = ? WHERE flight_id = ? *)
Definition update_seats (seats flight_id : Z) (db : database) : database :=
  mkDatabase
    (map (fun f => if Flights.flight_id f =? flight_id
                   then Flights.set_seats_available f seats else f)
         (flights db))
    (bookings db) (flights_seq db) (bookings_seq db) (last_insert_rowid db).

(** UPDATE flights SET seats_available = seats_available + ?
    WHERE flight_id = ? *)
Definition add_seats (num_seats flight_id : Z) (db : database) : database :=
  mkDatabase
    (map (fun f => if Flights.flight_id f =? flight_id
                   then Flights.set_seats_available f
                          (Flights.seats_available f + num_seats)
                   else f)
         (flights db))
    (bookings db) (flights_seq db) (bookings_seq db) (last_insert_rowid db).

(** INSERT INTO bookings (flight_id, passenger_name, num_seats, total_price)
    VALUES (?, ?, ?, ?), as [book_flight] executes it; booking_date takes its
    default, CURRENT_DATE, which is the argument [today].  [flight_id] was
    bound by the SELECT before, and [num_seats] is at most the
    seats_available read from the table, so binding can only fail for a
    [num_seats] below -2^63. *)
Definition insert_booking (today : string) (flight_id : Z)
    (passenger_name : string) (num_seats : Z) (total_price : float)
    (db : database) : result (string + database) :=
  if num_seats <? -9223372036854775808 then Raise OverflowError
  else if PrimFloat.is_nan total_price
  then Return (inl "NOT NULL constraint failed: bookings.total_price"%string)
  else
    let id := next_rowid (map Bookings.booking_id (bookings db)) (bookings_seq db) in
    Return
      (inr (mkDatabase
              (flights db)
              (bookings db ++
                 [Bookings.mk id flight_id passenger_name num_seats
                    (real_column total_price) today])
              (flights_seq db) id id)).

(** DELETE FROM bookings WHERE booking_id = ? *)
Definition delete_booking (booking_id : Z) (db : database) : database :=
  mkDatabase
    (flights db)
    (filter (fun b => negb (Bookings.booking_id b =? booking_id)) (bookings db))
    (flights_seq db) (bookings_seq db) (last_insert_rowid db).

(** ** DatabaseManager *)

(** [add_flight]: True when the row went in, False (after an error dialog)
    when SQLite refused it; the OverflowError of the bind is not caught. *)
Definition add_flight (db : database) (departure destination date time : string)
    (price : float) (seats : Z) : database * result bool :=
  match insert_flight departure destination date time price seats db with
  | Return (inr db') => (db', Return true)
  | Return (inl _) => (db, Return false)
  | Raise e => (db, Raise e)
  end.

Definition dummy_flights : list (string * string * string * string * float * Z) :=
  [ ("New York", "London", "2025-07-01", "08:00", 750%float, 150);
    ("London", "Paris", "2025-07-02", "10:30", 200%float, 80);
    ("Paris", "Rome", "2025-07-03", "14:00", 150%float, 100);
    ("New York", "Tokyo", "2025-07-10", "18:00", 1200%float, 200);
    ("Tokyo", "Sydney", "2025-07-12", "22:00", 900%float, 120) ]%string.

(** [_add_dummy_data_if_empty]: SELECT COUNT( * ) FROM flights, and the five
    seed flights by executemany when it is 0. *)
Definition _add_dummy_data_if_empty (db : database) : database :=
  if (Z.of_nat (List.length (flights db)) =? 0)
  then fold_left
         (fun d '(dep, dest, date, time, price, seats) =>
            match insert_flight dep dest date time price seats d with
            | Return (inr d') => d'
            | _ => d
            end)
         dummy_flights db
  else db.

(** [init_db]: both tables exist once it has run (they do in every
    [database]), then the seed data. *)
Definition init_db (db : database) : database := _add_dummy_data_if_empty db.

(** [book_flight]: the try block, statement by statement.  [db1] is the store
    inside the open transaction; the except branch rolls back to [db].  An
    OverflowError is raised by the bind of the SELECT, by [price * num_seats]
    when [num_seats] is too large for a float, by the bind of the UPDATE or
    by the bind of the INSERT; it passes the except clause, so after the last
    of these the UPDATE stays in the open transaction. *)
Definition book_flight (today : string) (db : database) (flight_id : Z)
    (passenger_name : string) (num_seats : Z)
  : database * result (bool * string) :=
  if negb (bindable flight_id (map Flights.flight_id (flights db)))
  then (db, Raise OverflowError)
  else
    match select_flight flight_id (flights db) with
    | None => (db, Return (false, "Flight not found."%string))
    | Some flight_info =>
        let price := Flights.price flight_info in
        let seats_available := Flights.seats_available flight_info in
        if num_seats >? seats_available
        then (db, Return (false,
                          ("Not enough seats available. Only "
                           ++ str seats_available ++ " seats left.")%string))
        else if PrimFloat.is_infinity (float_of_int num_seats)
        then (db, Raise OverflowError)
        else
          let total_price := PrimFloat.mul price (float_of_int num_seats) in
          if negb (int64 (seats_available - num_seats))
          then (db, Raise OverflowError)
          else
            let db1 := update_seats (seats_available - num_seats) flight_id db in
            match insert_booking today flight_id passenger_name num_seats
                                 total_price db1 with
            | Return (inr db2) =>
                (db2, Return (true, "Flight booked successfully!"%string))
            | Return (inl e) =>
                (db, Return (false, ("Error booking flight: " ++ e)%string))
            | Raise e => (db1, Raise e)
            end
    end.

(** [cancel_booking].  The bind of the SELECT raises for an id of more than
    64 bits; the UPDATE and the DELETE bind integers of the table and that
    id.  Neither statement can fail a constraint, so the except branch is not
    reached. *)
Definition cancel_booking (db : database) (booking_id : Z)
  : database * result (bool * string) :=
  if negb (bindable booking_id (map Bookings.booking_id (bookings db)))
  then (db, Raise OverflowError)
  else
    match select_booking booking_id (bookings db) with
    | None => (db, Return (false, "Booking not found."%string))
    | Some booking_info =>
        let flight_id := Bookings.flight_id booking_info in
        let num_seats := Bookings.num_seats booking_info in
        let db1 := add_seats num_seats flight_id db in
        let db2 := delete_booking booking_id db1 in
        (db2, Return (true, "Booking cancelled successfully!"%string))
    end.

(** [get_booking]: the join of bookings with flights on flight_id, restricted
    to the booking id, then fetchone().  The columns are named as
    [_view_booking_gui] unpacks them. *)
Record booking_info := mkBookingInfo {
  b_id : Z;
  dep : string;
  dest : string;
  date : string;
  time : string;
  p_name : string;
  n_seats : Z;
  t_price : float;
  price_per_seat : float
}.

Definition join_bookings_flights (booking_id : Z) (db : database)
  : list booking_info :=
  flat_map
    (fun b =>
       if Bookings.booking_id b =? booking_id
       then map (fun f =>
                   mkBookingInfo (Bookings.booking_id b) (Flights.departure f)
                     (Flights.destination f) (Flights.flight_date f)
                     (Flights.flight_time f) (Bookings.passenger_name b)
                     (Bookings.num_seats b) (Bookings.total_price b)
                     (Flights.price f))
                (filter (fun f => Flights.flight_id f =? Bookings.flight_id b)
                        (flights db))
       else [])
    (bookings db).

Definition get_booking (db : database) (booking_id : Z) : option booking_info :=
  hd_error (join_bookings_flights booking_id db).

(** ** LIKE

    SQLite's LIKE without ESCAPE: [%] in the pattern stands for any run of
    characters, [_] for any one character, and any other character for
    itself, upper and lower case of the ASCII letters taken as equal. *)
Definition lower (c : ascii) : ascii :=
  let n := N_of_ascii c in
  if ((65 <=? n) && (n <=? 90))%N then ascii_of_N (n + 32) else c.

Fixpoint like (pattern s : string) : bool :=
  match pattern with
  | EmptyString => negb (truthy s)
  | String c pattern' =>
      if (c =? "%")%char then
        (fix star (t : string) : bool :=
           like pattern' t
           || match t with
              | EmptyString => false
              | String _ t' => star t'
              end) s
      else
        match s with
        | EmptyString => false
        | String d s' =>
            ((c =? "_")%char || (lower c =? lower d)%char) && like pattern' s'
        end
  end.

(** The WHERE clause [search_flights] builds: a term per filter that is a
    non-empty string, the f-string [%{departure}%] as the LIKE pattern. *)
Definition search_where (departure destination date : string)
    (f : Flights.row) : bool :=
  (if truthy departure
   then like ("%" ++ departure ++ "%") (Flights.departure f) else true)
  && (if truthy destination
      then like ("%" ++ destination ++ "%") (Flights.destination f) else true)
  && (if truthy date then (Flights.flight_date f =? date)%string else true).

(** [search_flights]: fetchall() of the scan, each row with all its columns. *)
Definition search_flights (db : database) (departure destination date : string)
  : list Flights.row :=
  filter (search_where departure destination date) (flights db).

(** ** The handler of the Book button *)

Inductive messagebox :=
| showerror (title message : string)
| showinfo (title message : string).

Definition newline : string := String (ascii_of_N 10) EmptyString.

Section BookFlightGui.
(** [str.strip()] and [int(str)] of Python ([None] is its ValueError). *)
Variable strip : string -> string.
Variable int : string -> option Z.

Definition invalid_input : messagebox :=
  showerror "Invalid Input"
            "Flight ID and Number of Seats must be valid integers.".

(** [_book_flight_gui], on the contents of the three entry fields: the
    store afterwards and the dialog shown, or the exception that escapes
    [book_flight] and the handler.  After a successful booking the handler
    empties the three fields and refreshes the search tab, which only reads
    the store. *)
Definition _book_flight_gui (today : string) (db : database)
    (book_flight_id_entry book_passenger_name_entry book_num_seats_entry : string)
  : database * result messagebox :=
  let flight_id_str := strip book_flight_id_entry in
  let passenger_name := strip book_passenger_name_entry in
  let num_seats_str := strip book_num_seats_entry in
  if negb (truthy flight_id_str) || negb (truthy passenger_name)
     || negb (truthy num_seats_str)
  then (db, Return (showerror "Input Error" "All fields are required for booking."))
  else
    match int flight_id_str with
    | None => (db, Return invalid_input)
    | Some flight_id =>
        match int num_seats_str with
        | None => (db, Return invalid_input)
        | Some num_seats =>
            if num_seats <=? 0 then (db, Return invalid_input)
            else
              match book_flight today db flight_id passenger_name num_seats with
              | (db', Raise e) => (db', Raise e)
              | (db', Return (success, message)) =>
                  if success then
                    let booking_id := last_insert_rowid db' in
                    if negb (booking_id =? 0)
                    then (db', Return (showinfo "Booking Success"
                                         (message ++ newline
                                          ++ "Your Booking ID is: "
                                          ++ str booking_id)))
                    else (db', Return (showinfo "Booking Success" message))
                  else (db', Return (showerror "Booking Failed" message))
              end
        end
    end.
End BookFlightGui.

(** ** Sequences of bookings and cancellations *)

Inductive operation :=
| Book (today : string) (flight_id : Z) (passenger_name : string) (num_seats : Z)
| Cancel (booking_id : Z).

Definition apply (db : database) (op : operation) : database :=
  match op with
  | Book today flight_id passenger_name num_seats =>
      fst (book_flight today db flight_id passenger_name num_seats)
  | Cancel booking_id => fst (cancel_booking db booking_id)
  end.

Definition run (ops : list operation) (db : database) : database :=
  fold_left apply ops db.

(** Seats of a flight as the store has them, and the seats its bookings hold. *)
Definition seats_of (flight_id : Z) (db : database) : option Z :=
  option_map Flights.seats_available (select_flight flight_id (flights db)).

Definition booked_seats (flight_id : Z) (bs : list Bookings.row) : Z :=
  fold_right
    (fun b acc => if Bookings.flight_id b =? flight_id
                  then Bookings.num_seats b + acc else acc)
    0 bs.

(** The store a first run starts from. *)
Definition seed_db : database := init_db empty_db.

(** A change of a flight's price: UPDATE flights SET price = ? WHERE
    flight_id = ?.  The program has no such statement; it stands for any
    later change of the price, made on the database file by other means.  A
    NaN is refused by the NOT NULL constraint and changes nothing. *)
Definition update_price (price : float) (flight_id : Z) (db : database)
  : database :=
  if PrimFloat.is_nan price then db
  else
    mkDatabase
      (map (fun f => if Flights.flight_id f =? flight_id
                     then Flights.set_price f (real_column price) else f)
           (flights db))
      (bookings db) (flights_seq db) (bookings_seq db) (last_insert_rowid db).

(** ** Substring matching as the specification words it

    [ci_contains x s]: [x] occurs in [s] as a substring when the ASCII
    letters of both are compared without regard to case. *)
Fixpoint ci_prefix (x s : string) : bool :=
  match x, s with
  | EmptyString, _ => true
  | String _ _, EmptyString => false
  | String a x', String b s' => (lower a =? lower b)%char && ci_prefix x' s'
  end.

Fixpoint ci_contains (x s : string) : bool :=
  ci_prefix x s
  || match s with
     | EmptyString => false
     | String _ s' => ci_contains x s'
     end.

(** [s.lower()] on the ASCII letters; [ci_contains x s] is Python's
    [x.lower() in s.lower()] (lemma [ci_contains_spec]). *)
Fixpoint lower_string (s : string) : string :=
  match s with
  | EmptyString => EmptyString
  | String c s' => String (lower c) (lower_string s')
  end.

(** A filter string free of the two LIKE wildcards. *)
Fixpoint no_wildcard (x : string) : bool :=
  match x with
  | EmptyString => true
  | String c x' => negb (c =? "%")%char && negb (c =? "_")%char && no_wildcard x'
  end.

(** The filter of the specification: every supplied (non-empty) filter must
    hold, departure and destination by substring, the date by equality. *)
Definition search_spec (departure destination date : string)
    (f : Flights.row) : bool :=
  (if truthy departure then ci_contains departure (Flights.departure f) else true)
  && (if truthy destination
      then ci_contains destination (Flights.destination f) else true)
  && (if truthy date then (Flights.flight_date f =? date)%string else true).

(** ** Instances of [strip] and [int] for the examples

    [str.strip()] over the characters of the model, and [int] on an
    optionally signed run of ASCII digits. *)
Definition isspace (c : ascii) : bool :=
  let n := N_of_ascii c in
  (((9 <=? n) && (n <=? 13)) || ((28 <=? n) && (n <=? 32))
   || (n =? 133) || (n =? 160))%N.

Fixpoint lstrip (s : string) : string :=
  match s with
  | EmptyString => EmptyString
  | String c s' => if isspace c then lstrip s' else s
  end.

Fixpoint rstrip (s : string) : string :=
  match s with
  | EmptyString => EmptyString
  | String c s' =>
      match rstrip s' with
      | EmptyString => if isspace c then EmptyString else String c EmptyString
      | r => String c r
      end
  end.

Definition strip_blanks (s : string) : string := rstrip (lstrip s).

Fixpoint digits (acc : Z) (s : string) : option Z :=
  match s with
  | EmptyString => Some acc
  | String c s' =>
      let n := N_of_ascii c in
      if ((48 <=? n) && (n <=? 57))%N
      then digits (10 * acc + Z.of_N (n - 48)) s'
      else None
  end.

Definition int_of_decimal (s : string) : option Z :=
  match s with
  | EmptyString => None
  | String c s' =>
      if (c =? "-")%char
      then if truthy s' then option_map Z.opp (digits 0 s') else None
      else if (c =? "+")%char
           then if truthy s' then digits 0 s' else None
           else digits 0 s
  end.

(** The calls of a sequence that book a negative number of seats are the
    ones [_book_flight_gui] never makes. *)
Definition books_no_negative (op : operation) : bool :=
  match op with
  | Book _ _ _ num_seats => 0 <=? num_seats
  | Cancel _ => true
  end.

(** ** Calls of the methods that write to the store *)

Inductive call :=
| AddFlight (departure destination date time : string) (price : float) (seats : Z)
| BookOrCancel (op : operation).

Definition call_apply (db : database) (c : call) : database :=
  match c with
  | AddFlight departure destination date time price seats =>
      fst (add_flight db departure destination date time price seats)
  | BookOrCancel op => apply db op
  end.

Definition calls_run (cs : list call) (db : database) : database :=
  fold_left call_apply cs db.

(** The columns of a flight that no statement of the program updates. *)
Definition static_columns (f : Flights.row)
  : Z * string * string * string * string * float :=
  (Flights.flight_id f, Flights.departure f, Flights.destination f,
   Flights.flight_date f, Flights.flight_time f, Flights.price f).

(** The values [add_flight] is given for a flight besides its seats, as the
    table holds them. *)
Definition route_columns (f : Flights.row)
  : string * string * string * string * float :=
  (Flights.departure f, Flights.destination f, Flights.flight_date f,
   Flights.flight_time f, Flights.price f).

(** The flights a sequence of calls asks for and SQLite takes: those of the
    [add_flight] calls whose seats fit 64 bits and whose price is not NaN,
    the price as the REAL column gives it back. *)
Definition accepted_flight (c : call)
  : list (string * string * string * string * float) :=
  match c with
  | AddFlight departure destination date time price seats =>
      if int64 seats && negb (PrimFloat.is_nan price)
      then [(departure, destination, date, time, real_column price)]
      else []
  | BookOrCancel _ => []
  end.

Definition accepted_flights (cs : list call)
  : list (string * string * string * string * float) :=
  flat_map accepted_flight cs.

(** The row [get_booking] returns for booking [b] on flight [f]. *)
Definition booking_info_of (b : Bookings.row) (f : Flights.row) : booking_info :=
  mkBookingInfo (Bookings.booking_id b) (Flights.departure f)
    (Flights.destination f) (Flights.flight_date f) (Flights.flight_time f)
    (Bookings.passenger_name b) (Bookings.num_seats b) (Bookings.total_price b)
    (Flights.price f).

(** ** The other handlers of the GUI *)

Section Handlers.
(** Python's [str.strip()], [int(str)] and [float(str)] ([None] is the
    ValueError), [datetime.strptime(s, format)] (true when it does not raise
    ValueError) and the format [{x:.2f}] of a float. *)
Variable strip : string -> string.
Variable int : string -> option Z.
Variable parse_float : string -> option float.
Variable strptime : string -> string -> bool.
Variable format_2f : float -> string.

Definition _is_valid_date (date_str : string) : bool :=
  strptime date_str "%Y-%m-%d".

Definition _is_valid_time (time_str : string) : bool :=
  strptime time_str "%H:%M".

(** [_search_flights_gui], on the three entry fields and the rows the result
    tree shows: the rows it shows afterwards and the dialog, if any. *)
Definition _search_flights_gui (db : database) (flights_tree : list Flights.row)
    (search_departure_entry search_destination_entry search_date_entry : string)
  : list Flights.row * option messagebox :=
  let departure := strip search_departure_entry in
  let destination := strip search_destination_entry in
  let date := strip search_date_entry in
  if truthy date && negb (_is_valid_date date)
  then (flights_tree,
        Some (showerror "Invalid Input" "Please enter date in YYYY-MM-DD format."))
  else
    match search_flights db departure destination date with
    | [] => ([], Some (showinfo "Search Results"
                                "No flights found matching your criteria."))
    | found => (found, None)
    end.

(** [_view_booking_gui], on the entry field and the text of the details
    label: the text afterwards and the dialog, if any.  [get_booking] binds
    the id, which raises for an int of more than 64 bits. *)
Definition _view_booking_gui (db : database) (booking_details_label : string)
    (booking_id_entry : string) : string * result (option messagebox) :=
  let booking_id_str := strip booking_id_entry in
  if negb (truthy booking_id_str)
  then (booking_details_label,
        Return (Some (showerror "Input Error" "Please enter a Booking ID.")))
  else
    match int booking_id_str with
    | None => (booking_details_label,
               Return (Some (showerror "Invalid Input"
                                       "Booking ID must be an integer.")))
    | Some booking_id =>
        if negb (bindable booking_id (map Bookings.booking_id (bookings db)))
        then (booking_details_label, Raise OverflowError)
        else
          match get_booking db booking_id with
          | Some i =>
              (("Booking ID: " ++ str (b_id i) ++ newline
               ++ "Flight: " ++ dep i ++ " to " ++ dest i ++ " on " ++ date i
               ++ " at " ++ time i ++ newline
               ++ "Passenger: " ++ p_name i ++ newline
               ++ "Number of Seats: " ++ str (n_seats i) ++ newline
               ++ "Price per Seat: $" ++ format_2f (price_per_seat i) ++ newline
               ++ "Total Price: $" ++ format_2f (t_price i))%string,
               Return None)
          | None =>
              (("Booking Details:" ++ newline ++ "Booking not found.")%string,
               Return (Some (showinfo "Booking Not Found"
                                      "No booking found with that ID.")))
          end
    end.

(** [_cancel_booking_gui], on the text of the details label, the entry field
    and the answer to the askyesno dialog: the store, the label and the
    entry afterwards, and the dialog that follows, if any.  After a
    cancellation the handler resets the label, empties the entry and
    refreshes the search tab, which only reads the store. *)
Definition _cancel_booking_gui (db : database)
    (booking_details_label booking_id_entry : string) (askyesno : bool)
  : database * (string * string) * result (option messagebox) :=
  let unchanged := (booking_details_label, booking_id_entry) in
  let booking_id_str := strip booking_id_entry in
  if negb (truthy booking_id_str)
  then (db, unchanged,
        Return (Some (showerror "Input Error"
                                "Please enter a Booking ID to cancel.")))
  else
    match int booking_id_str with
    | None => (db, unchanged,
               Return (Some (showerror "Invalid Input"
                                       "Booking ID must be an integer.")))
    | Some booking_id =>
        if askyesno then
          match cancel_booking db booking_id with
          | (db', Raise e) => (db', unchanged, Raise e)
          | (db', Return (success, message)) =>
              if success
              then (db', (("Booking Details:" ++ newline)%string, EmptyString),
                    Return (Some (showinfo "Cancellation Success" message)))
              else (db', unchanged,
                    Return (Some (showerror "Cancellation Failed" message)))
          end
        else (db, unchanged, Return None)
    end.

(** [_add_flight_gui], on the six entry fields of the Admin tab.  When
    [add_flight] returns False the dialog was its own and the handler shows
    none; after a success the handler empties the fields and refreshes the
    search tab, which only reads the store. *)
Definition _add_flight_gui (db : database)
    (admin_departure_entry admin_destination_entry admin_date_entry
     admin_time_entry admin_price_entry admin_seats_available_entry : string)
  : database * result (option messagebox) :=
  let departure := strip admin_departure_entry in
  let destination := strip admin_destination_entry in
  let date := strip admin_date_entry in
  let time := strip admin_time_entry in
  let price_str := strip admin_price_entry in
  let seats_str := strip admin_seats_available_entry in
  if negb (forallb truthy [departure; destination; date; time; price_str; seats_str])
  then (db, Return (Some (showerror "Input Error"
                                    "All fields are required to add a flight.")))
  else if negb (_is_valid_date date)
  then (db, Return (Some (showerror "Invalid Input"
                                    "Please enter date in YYYY-MM-DD format.")))
  else if negb (_is_valid_time time)
  then (db, Return (Some (showerror "Invalid Input"
                                    "Please enter time in HH:MM format (24-hour).")))
  else
    let invalid := showerror "Invalid Input"
                     "Price must be a valid number and Seats a valid integer." in
    match parse_float price_str with
    | None => (db, Return (Some invalid))
    | Some price =>
        match int seats_str with
        | None => (db, Return (Some invalid))
        | Some seats =>
            if PrimFloat.leb price 0 || (seats <=? 0)
            then (db, Return (Some invalid))
            else
              match add_flight db departure destination date time price seats with
              | (db', Raise e) => (db', Raise e)
              | (db', Return added) =>
                  if added
                  then (db', Return (Some (showinfo "Flight Added"
                                             "New flight added successfully!")))
                  else (db', Return None)
              end
        end
    end.

(** The clicks that can change the store, and a session of them.  The text
    of the details label has no part in what a click does to the store. *)
Inductive click :=
| ClickBook (today : string)
            (book_flight_id_entry book_passenger_name_entry book_num_seats_entry : string)
| ClickCancel (booking_id_entry : string) (askyesno : bool)
| ClickAddFlight (admin_departure_entry admin_destination_entry admin_date_entry
                  admin_time_entry admin_price_entry admin_seats_available_entry : string).

Definition on_click (db : database) (c : click) : database :=
  match c with
  | ClickBook today e1 e2 e3 => fst (_book_flight_gui strip int today db e1 e2 e3)
  | ClickCancel e askyesno =>
      fst (fst (_cancel_booking_gui db EmptyString e askyesno))
  | ClickAddFlight e1 e2 e3 e4 e5 e6 => fst (_add_flight_gui db e1 e2 e3 e4 e5 e6)
  end.

Definition session (cs : list click) (db : database) : database :=
  fold_left on_click cs db.
End Handlers.

(** An instance of [float(str)] for the examples: a run of ASCII digits. *)
Definition float_of_digits (s : string) : option float :=
  if truthy s then option_map float_of_int (digits 0 s) else None.

(** An instance of [strptime] for the examples: the two formats of the
    program on fully written fields, [dddd-dd-dd] and [dd:dd], without the
    calendar check. *)
Definition is_digit (c : ascii) : bool :=
  let n := N_of_ascii c in ((48 <=? n) && (n <=? 57))%N.

Definition strptime_shape (s format : string) : bool :=
  if (format =? "%Y-%m-%d")%string then
    match s with
    | String y1 (String y2 (String y3 (String y4 (String "-"
        (String m1 (String m2 (String "-" (String d1 (String d2 EmptyString))))))))) =>
        forallb is_digit [y1; y2; y3; y4; m1; m2; d1; d2]
    | _ => false
    end
  else if (format =? "%H:%M")%string then
    match s with
    | String h1 (String h2 (String ":" (String m1 (String m2 EmptyString)))) =>
        forallb is_digit [h1; h2; m1; m2]
    | _ => false
    end
  else false.

(** ** Stores used in the examples *)

Definition today : string := "2025-06-01".

(** The seed store after "A. Lee" booked two seats on flight 1. *)
Definition booked_db : database := fst (book_flight today seed_db 1 "A. Lee" 2).

(** A store whose only booking refers to flight 99, which does not exist. *)
Definition orphan_db : database :=
  mkDatabase (flights seed_db)
             [Bookings.mk 1 99 "A. Lee" 2 1500%float today]
             5 1 1.

(** * Properties *)

(** ** Runs of the seed data *)

Example seed_db_flights :
  map (fun f => (Flights.flight_id f, Flights.departure f, Flights.seats_available f))
      (flights seed_db)
  = [(1, "New York", 150); (2, "London", 80); (3, "Paris", 100);
     (4, "New York", 200); (5, "Tokyo", 120)]%string.
Proof. vm_compute. reflexivity. Qed.

Example book_two_seats :
  snd (book_flight today seed_db 1 "A. Lee" 2)
  = Return (true, "Flight booked successfully!"%string)
  /\ seats_of 1 booked_db = Some 148
  /\ option_map Bookings.total_price (select_booking 1 (bookings booked_db))
     = Some 1500%float
  /\ last_insert_rowid booked_db = 1.
Proof. vm_compute. repeat split; reflexivity. Qed.

Example cancel_restores_150 :
  snd (cancel_booking booked_db 1)
  = Return (true, "Booking cancelled successfully!"%string)
  /\ seats_of 1 (fst (cancel_booking booked_db 1)) = Some 150
  /\ get_booking (fst (cancel_booking booked_db 1)) 1 = None.
Proof. vm_compute. repeat split; reflexivity. Qed.

Example search_new :
  map Flights.flight_id (search_flights seed_db "new" "" "") = [1; 4].
Proof. vm_compute. reflexivity. Qed.

(** ** Lookups after an update *)

Lemma select_flight_map (g : Flights.row -> Flights.row) fid fs :
  (forall f, Flights.flight_id (g f) = Flights.flight_id f) ->
  select_flight fid (map g fs) = option_map g (select_flight fid fs).
Proof.
  intros Hid. unfold select_flight.
  induction fs as [|f fs IH]; simpl; [reflexivity|].
  rewrite Hid. destruct (Flights.flight_id f =? fid); [reflexivity | exact IH].
Qed.

Lemma select_flight_id fid fs f :
  select_flight fid fs = Some f -> Flights.flight_id f = fid.
Proof.
  unfold select_flight. intros H. apply find_some in H.
  destruct H as [_ H]. apply Z.eqb_eq in H. exact H.
Qed.

Lemma select_flight_update_seats s fid fid' db :
  select_flight fid' (flights (update_seats s fid db))
  = option_map (fun f => if Flights.flight_id f =? fid
                         then Flights.set_seats_available f s else f)
               (select_flight fid' (flights db)).
Proof.
  unfold update_seats; simpl. apply select_flight_map.
  intros f. destruct (Flights.flight_id f =? fid); reflexivity.
Qed.

Lemma select_flight_add_seats n fid fid' db :
  select_flight fid' (flights (add_seats n fid db))
  = option_map (fun f => if Flights.flight_id f =? fid
                         then Flights.set_seats_available f
                                (Flights.seats_available f + n)
                         else f)
               (select_flight fid' (flights db)).
Proof.
  unfold add_seats; simpl. apply select_flight_map.
  intros f. destruct (Flights.flight_id f =? fid); reflexivity.
Qed.

(** ** Fresh rowids *)

Lemma next_rowid_above ids seq i : In i ids -> i < next_rowid ids seq.
Proof.
  unfold next_rowid. induction ids as [|j ids IH]; simpl; [tauto|].
  intros [->|Hin]; [lia|]. specialize (IH Hin). lia.
Qed.

Lemma select_booking_none_iff b bs :
  select_booking b bs = None <-> ~ In b (map Bookings.booking_id bs).
Proof.
  unfold select_booking. induction bs as [|x bs IH]; simpl; [tauto|].
  destruct (Z.eqb_spec (Bookings.booking_id x) b) as [E|E].
  - split; [discriminate | intros H; exfalso; apply H; left; exact E].
  - rewrite IH. tauto.
Qed.

Lemma select_booking_app_fresh b bs x :
  ~ In b (map Bookings.booking_id bs) -> Bookings.booking_id x = b ->
  select_booking b (bs ++ [x]) = Some x.
Proof.
  unfold select_booking. intros Hn Hx.
  induction bs as [|y bs IH]; simpl.
  - rewrite Hx, Z.eqb_refl. reflexivity.
  - simpl in Hn. destruct (Z.eqb_spec (Bookings.booking_id y) b) as [E|E].
    + exfalso; apply Hn; left; exact E.
    + apply IH. intros H; apply Hn; right; exact H.
Qed.

Lemma filter_out_fresh b bs :
  ~ In b (map Bookings.booking_id bs) ->
  filter (fun x => negb (Bookings.booking_id x =? b)) bs = bs.
Proof.
  induction bs as [|y bs IH]; simpl; [reflexivity|].
  intros Hn. destruct (Z.eqb_spec (Bookings.booking_id y) b) as [E|E]; simpl.
  - exfalso; apply Hn; left; exact E.
  - f_equal. apply IH. intros H; apply Hn; right; exact H.
Qed.

Lemma next_rowid_fresh ids seq : ~ In (next_rowid ids seq) ids.
Proof. intros H. apply (next_rowid_above ids seq) in H. lia. Qed.

(** ** The outcomes of [book_flight] and [cancel_booking] *)

Lemma select_flight_bindable fid fs f :
  select_flight fid fs = Some f -> bindable fid (map Flights.flight_id fs) = true.
Proof.
  intros H. unfold bindable. apply orb_true_iff. right.
  apply existsb_exists. exists fid. split; [|apply Z.eqb_refl].
  pose proof (select_flight_id _ _ _ H) as Hid. unfold select_flight in H.
  apply find_some in H. rewrite <- Hid. apply in_map. exact (proj1 H).
Qed.

Lemma select_booking_bindable b bs bk :
  select_booking b bs = Some bk -> bindable b (map Bookings.booking_id bs) = true.
Proof.
  intros H. unfold bindable. apply orb_true_iff. right.
  apply existsb_exists. exists b. split; [|apply Z.eqb_refl].
  unfold select_booking in H. apply find_some in H. destruct H as [Hin Hid].
  apply Z.eqb_eq in Hid. rewrite <- Hid. apply in_map. exact Hin.
Qed.

Lemma bindable_int64 n ids : int64 n = true -> bindable n ids = true.
Proof. intros H. unfold bindable. rewrite H. reflexivity. Qed.

Lemma book_flight_success today db fid name n db' msg :
  book_flight today db fid name n = (db', Return (true, msg)) ->
  exists f,
    select_flight fid (flights db) = Some f
    /\ n <= Flights.seats_available f
    /\ insert_booking today fid name n
         (PrimFloat.mul (Flights.price f) (float_of_int n))
         (update_seats (Flights.seats_available f - n) fid db) = Return (inr db')
    /\ msg = "Flight booked successfully!"%string.
Proof.
  unfold book_flight. intros H.
  destruct (negb (bindable fid (map Flights.flight_id (flights db))));
    [discriminate|].
  destruct (select_flight fid (flights db)) as [f|]; [|discriminate].
  destruct (n >? Flights.seats_available f) eqn:Hgt; [discriminate|].
  destruct (PrimFloat.is_infinity (float_of_int n)); [discriminate|].
  destruct (negb (int64 (Flights.seats_available f - n))); [discriminate|].
  destruct (insert_booking _ _ _ _ _ _) as [[e|db2]|e] eqn:Hins;
    [discriminate | | discriminate].
  injection H as <- <-. exists f.
  split; [reflexivity|]. split; [|split; [exact Hins | reflexivity]].
  rewrite Z.gtb_ltb in Hgt. apply Z.ltb_ge in Hgt. exact Hgt.
Qed.

Lemma book_flight_failure today db fid name n db' msg :
  book_flight today db fid name n = (db', Return (false, msg)) -> db' = db.
Proof.
  unfold book_flight. intros H.
  destruct (negb (bindable fid (map Flights.flight_id (flights db))));
    [discriminate|].
  destruct (select_flight fid (flights db)) as [f|]; [|congruence].
  destruct (n >? Flights.seats_available f); [congruence|].
  destruct (PrimFloat.is_infinity (float_of_int n)); [discriminate|].
  destruct (negb (int64 (Flights.seats_available f - n))); [discriminate|].
  destruct (insert_booking _ _ _ _ _ _) as [[e|db2]|e]; congruence.
Qed.

(** When [book_flight] raises, the store is the one it was given, unless it
    was the bind of the INSERT that raised, for a [num_seats] below -2^63:
    then the seats of the flight are already updated. *)
Lemma book_flight_raise today db fid name n db' e :
  book_flight today db fid name n = (db', Raise e) ->
  e = OverflowError
  /\ (db' = db
      \/ exists f,
           select_flight fid (flights db) = Some f
           /\ n < -9223372036854775808
           /\ db' = update_seats (Flights.seats_available f - n) fid db).
Proof.
  unfold book_flight. intros H. destruct e.
  destruct (negb (bindable fid (map Flights.flight_id (flights db))));
    [injection H as <-; split; [reflexivity | left; reflexivity]|].
  destruct (select_flight fid (flights db)) as [f|]; [|discriminate].
  destruct (n >? Flights.seats_available f); [discriminate|].
  destruct (PrimFloat.is_infinity (float_of_int n));
    [injection H as <-; split; [reflexivity | left; reflexivity]|].
  destruct (negb (int64 (Flights.seats_available f - n)));
    [injection H as <-; split; [reflexivity | left; reflexivity]|].
  unfold insert_booking in H.
  destruct (n <? -9223372036854775808) eqn:Hn.
  - injection H as <-. split; [reflexivity|]. right. exists f.
    apply Z.ltb_lt in Hn. repeat split. exact Hn.
  - destruct (PrimFloat.is_nan _); discriminate.
Qed.

Lemma insert_booking_inr today fid name n total db db' :
  insert_booking today fid name n total db = Return (inr db') ->
  PrimFloat.is_nan total = false
  /\ db' = mkDatabase (flights db)
             (bookings db ++
                [Bookings.mk
                   (next_rowid (map Bookings.booking_id (bookings db)) (bookings_seq db))
                   fid name n (real_column total) today])
             (flights_seq db)
             (next_rowid (map Bookings.booking_id (bookings db)) (bookings_seq db))
             (next_rowid (map Bookings.booking_id (bookings db)) (bookings_seq db)).
Proof.
  unfold insert_booking.
  destruct (n <? -9223372036854775808); [discriminate|].
  destruct (PrimFloat.is_nan total); [discriminate|].
  intros H. injection H as <-. split; reflexivity.
Qed.

Lemma cancel_booking_success db b db' msg :
  cancel_booking db b = (db', Return (true, msg)) ->
  exists bk,
    select_booking b (bookings db) = Some bk
    /\ db' = delete_booking b
               (add_seats (Bookings.num_seats bk) (Bookings.flight_id bk) db)
    /\ msg = "Booking cancelled successfully!"%string.
Proof.
  unfold cancel_booking. intros H.
  destruct (negb (bindable b (map Bookings.booking_id (bookings db))));
    [discriminate|].
  destruct (select_booking b (bookings db)) as [bk|]; [|discriminate].
  injection H as <- <-. exists bk. repeat split.
Qed.

(** A [cancel_booking] that does not return True leaves the store alone. *)
Lemma cancel_booking_no_success db b :
  (exists db' msg, cancel_booking db b = (db', Return (true, msg)))
  \/ fst (cancel_booking db b) = db.
Proof.
  unfold cancel_booking.
  destruct (negb (bindable b (map Bookings.booking_id (bookings db))));
    [right; reflexivity|].
  destruct (select_booking b (bookings db)) as [bk|]; [|right; reflexivity].
  left. eauto.
Qed.

Lemma select_booking_deleted b db :
  select_booking b (bookings (delete_booking b db)) = None.
Proof.
  unfold delete_booking; simpl. apply select_booking_none_iff.
  rewrite in_map_iff. intros [x [Hx Hin]].
  apply filter_In in Hin. destruct Hin as [_ Hin].
  rewrite Hx, Z.eqb_refl in Hin. discriminate.
Qed.

(** ** C1: no overselling *)

(** C1. When [num_seats] exceeds the seats the flight has left, [book_flight]
    returns False with the message that carries the remaining count, and the
    store (every flight's seats and all bookings) is the one it was given. *)
Theorem book_flight_insufficient_seats today db flight_id passenger_name num_seats f :
  select_flight flight_id (flights db) = Some f ->
  num_seats > Flights.seats_available f ->
  book_flight today db flight_id passenger_name num_seats
  = (db, Return (false,
                 ("Not enough seats available. Only "
                  ++ str (Flights.seats_available f) ++ " seats left.")%string)).
Proof.
  intros Hsel Hgt. unfold book_flight.
  rewrite (select_flight_bindable _ _ _ Hsel), Hsel. cbn [negb].
  replace (num_seats >? Flights.seats_available f) with true; [reflexivity|].
  symmetry. rewrite Z.gtb_ltb. apply Z.ltb_lt. lia.
Qed.

Lemma book_flight_insufficient_seats_witness :
  book_flight today seed_db 1 "A. Lee" 200
  = (seed_db,
     Return (false, "Not enough seats available. Only 150 seats left."%string)).
Proof.
  exact (book_flight_insufficient_seats today seed_db 1 "A. Lee" 200
           (Flights.mk 1 "New York" "London" "2025-07-01" "08:00" 750%float 150)
           eq_refl eq_refl).
Defined.

(** ** C3: booking then cancelling *)

(** C3. After a successful [book_flight], whose booking id is
    last_insert_rowid(), [cancel_booking] of that id succeeds; the flight has
    the seats it had before the booking and the bookings table is the one
    before the booking. *)
Theorem book_then_cancel today db flight_id passenger_name num_seats db' msg :
  book_flight today db flight_id passenger_name num_seats
  = (db', Return (true, msg)) ->
  exists db'',
    cancel_booking db' (last_insert_rowid db')
    = (db'', Return (true, "Booking cancelled successfully!"%string))
    /\ seats_of flight_id db'' = seats_of flight_id db
    /\ seats_of flight_id db <> None
    /\ bookings db'' = bookings db.
Proof.
  intros H. apply book_flight_success in H.
  destruct H as [f [Hsel [Hle [Hins _]]]].
  apply insert_booking_inr in Hins. destruct Hins as [_ ->].
  cbn [last_insert_rowid bookings]. change (bookings (update_seats _ _ db)) with (bookings db).
  change (bookings_seq (update_seats _ _ db)) with (bookings_seq db).
  set (id := next_rowid (map Bookings.booking_id (bookings db)) (bookings_seq db)).
  assert (Hfresh : ~ In id (map Bookings.booking_id (bookings db)))
    by apply next_rowid_fresh.
  set (bk := Bookings.mk id flight_id passenger_name num_seats
               (real_column (PrimFloat.mul (Flights.price f)
                                            (float_of_int num_seats))) today).
  assert (Hbk : select_booking id (bookings db ++ [bk]) = Some bk)
    by (apply select_booking_app_fresh; [exact Hfresh | reflexivity]).
  unfold cancel_booking. cbn [bookings].
  rewrite (select_booking_bindable _ _ _ Hbk), Hbk. cbn [negb].
  eexists. split; [reflexivity|]. subst bk.
  cbn [Bookings.flight_id Bookings.num_seats].
  split; [|split].
  - unfold seats_of. cbn [delete_booking flights].
    rewrite select_flight_add_seats. cbn [flights].
    rewrite select_flight_update_seats, Hsel. cbn [option_map].
    pose proof (select_flight_id _ _ _ Hsel) as Hid.
    rewrite Hid, Z.eqb_refl. cbn. rewrite Hid, Z.eqb_refl. cbn.
    f_equal. lia.
  - unfold seats_of. rewrite Hsel. discriminate.
  - cbn [delete_booking add_seats bookings].
    rewrite filter_app. cbn [filter Bookings.booking_id].
    rewrite Z.eqb_refl. cbn [negb]. rewrite app_nil_r.
    apply filter_out_fresh. exact Hfresh.
Qed.

Lemma book_then_cancel_witness :
  exists db'',
    cancel_booking booked_db (last_insert_rowid booked_db)
    = (db'', Return (true, "Booking cancelled successfully!"%string))
    /\ seats_of 1 db'' = seats_of 1 seed_db
    /\ seats_of 1 seed_db <> None
    /\ bookings db'' = bookings seed_db.
Proof.
  exact (book_then_cancel today seed_db 1 "A. Lee" 2 booked_db
           "Flight booked successfully!" eq_refl).
Defined.

(** ** C4: cancelling what is not there *)

Lemma bindable_absent b bs :
  select_booking b bs = None ->
  bindable b (map Bookings.booking_id bs) = int64 b.
Proof.
  intros H. unfold bindable.
  destruct (existsb (Z.eqb b) (map Bookings.booking_id bs)) eqn:E;
    [|apply orb_false_r].
  exfalso. apply existsb_exists in E. destruct E as [x [Hin Hx]].
  apply Z.eqb_eq in Hx. subst x.
  apply select_booking_none_iff in H. exact (H Hin).
Qed.

Lemma cancel_booking_absent db b :
  select_booking b (bookings db) = None ->
  cancel_booking db b
  = (db, if int64 b then Return (false, "Booking not found."%string)
         else Raise OverflowError).
Proof.
  intros H. unfold cancel_booking. rewrite (bindable_absent _ _ H), H.
  destruct (int64 b); reflexivity.
Qed.




(** ** C2: seat conservation *)

Lemma booked_seats_app fid bs x :
  booked_seats fid (bs ++ [x])
  = booked_seats fid bs
    + (if Bookings.flight_id x =? fid then Bookings.num_seats x else 0).
Proof.
  induction bs as [|y bs IH]; simpl.
  - destruct (Bookings.flight_id x =? fid); lia.
  - rewrite IH. destruct (Bookings.flight_id y =? fid); lia.
Qed.

Lemma booked_seats_delete fid b bs bk :
  NoDup (map Bookings.booking_id bs) ->
  select_booking b bs = Some bk ->
  booked_seats fid (filter (fun x => negb (Bookings.booking_id x =? b)) bs)
  = booked_seats fid bs
    - (if Bookings.flight_id bk =? fid then Bookings.num_seats bk else 0).
Proof.
  unfold select_booking.
  induction bs as [|y bs IH]; simpl; [discriminate|].
  intros Hnd Hsel. inversion Hnd as [|? ? Hnotin Hnd']; subst.
  destruct (Z.eqb_spec (Bookings.booking_id y) b) as [E|E]; simpl.
  - injection Hsel as ->. subst b.
    rewrite filter_out_fresh by exact Hnotin.
    destruct (Bookings.flight_id bk =? fid); lia.
  - rewrite (IH Hnd' Hsel). destruct (Bookings.flight_id y =? fid); lia.
Qed.

Lemma NoDup_filter_ids (p : Bookings.row -> bool) bs :
  NoDup (map Bookings.booking_id bs) ->
  NoDup (map Bookings.booking_id (filter p bs)).
Proof.
  induction bs as [|y bs IH]; simpl; [trivial|].
  intros Hnd. inversion Hnd as [|? ? Hnotin Hnd']; subst.
  destruct (p y); simpl; [|apply IH; exact Hnd'].
  constructor; [|apply IH; exact Hnd'].
  rewrite in_map_iff in *. intros [z [Hz Hin]]. apply Hnotin.
  exists z. split; [exact Hz|]. apply filter_In in Hin. tauto.
Qed.

Lemma NoDup_snoc_fresh ids seq :
  NoDup ids -> NoDup (ids ++ [next_rowid ids seq]).
Proof.
  intros Hnd. apply NoDup_app; [exact Hnd | repeat constructor; simpl; tauto |].
  intros i Hi [<-|[]]. exact (next_rowid_fresh ids seq Hi).
Qed.

(** What a call of [book_flight] or [cancel_booking] does to the store: it
    leaves it alone, books, leaves the seat update of a booking that raised,
    or cancels. *)
Lemma apply_cases db op :
  apply db op = db
  \/ (exists today0 fid name n f,
        op = Book today0 fid name n
        /\ select_flight fid (flights db) = Some f
        /\ n <= Flights.seats_available f
        /\ apply db op
           = mkDatabase
               (flights (update_seats (Flights.seats_available f - n) fid db))
               (bookings db ++
                  [Bookings.mk
                     (next_rowid (map Bookings.booking_id (bookings db))
                                 (bookings_seq db))
                     fid name n
                     (real_column (PrimFloat.mul (Flights.price f) (float_of_int n)))
                     today0])
               (flights_seq db)
               (next_rowid (map Bookings.booking_id (bookings db)) (bookings_seq db))
               (next_rowid (map Bookings.booking_id (bookings db)) (bookings_seq db)))
  \/ (exists today0 fid name n f,
        op = Book today0 fid name n
        /\ select_flight fid (flights db) = Some f
        /\ n < -9223372036854775808
        /\ apply db op = update_seats (Flights.seats_available f - n) fid db)
  \/ (exists b bk,
        op = Cancel b
        /\ select_booking b (bookings db) = Some bk
        /\ apply db op
           = delete_booking b
               (add_seats (Bookings.num_seats bk) (Bookings.flight_id bk) db)).
Proof.
  destruct op as [today0 fid name n | b]; unfold apply.
  - destruct (book_flight today0 db fid name n) as [db' [[[|] msg]|e]] eqn:H;
      cbn [fst].
    + apply book_flight_success in H. destruct H as [f [Hf [Hle [Hins _]]]].
      apply insert_booking_inr in Hins. destruct Hins as [_ ->].
      right; left. exists today0, fid, name, n, f.
      split; [reflexivity|]. split; [exact Hf|]. split; [exact Hle | reflexivity].
    + apply book_flight_failure in H. left. exact H.
    + apply book_flight_raise in H. destruct H as [_ [-> | [f [Hf [Hn ->]]]]];
        [left; reflexivity|].
      right; right; left. exists today0, fid, name, n, f.
      split; [reflexivity|]. split; [exact Hf|]. split; [exact Hn | reflexivity].
  - destruct (cancel_booking_no_success db b) as [[db' [msg H]] | H].
    + rewrite H. cbn [fst]. apply cancel_booking_success in H.
      destruct H as [bk [Hbk [-> _]]].
      right; right; right. exists b, bk.
      split; [reflexivity|]. split; [exact Hbk | reflexivity].
    + left. exact H.
Qed.

(** What the invariant of one flight is: booking ids are distinct, the flight
    is there, and its free seats plus the seats its bookings hold are [c]. *)
Lemma conservation_step fid c db op :
  books_no_negative op = true ->
  NoDup (map Bookings.booking_id (bookings db)) ->
  (exists s, seats_of fid db = Some s
             /\ s + booked_seats fid (bookings db) = c) ->
  NoDup (map Bookings.booking_id (bookings (apply db op)))
  /\ exists s, seats_of fid (apply db op) = Some s
               /\ s + booked_seats fid (bookings (apply db op)) = c.
Proof.
  intros Hop Hnd [s [Hs Hsum]]. unfold seats_of in Hs.
  destruct (select_flight fid (flights db)) as [f|] eqn:Hf; [|discriminate].
  injection Hs as Hs. pose proof (select_flight_id _ _ _ Hf) as Hfid.
  destruct (apply_cases db op)
    as [-> | [[today0 [fid0 [name [n [f0 [-> [Hf0 [Hle ->]]]]]]]]
           | [[today0 [fid0 [name [n [f0 [-> [Hf0 [Hn _]]]]]]]]
             | [b [bk [-> [Hbk ->]]]]]]].
  - split; [exact Hnd|]. exists s. unfold seats_of. rewrite Hf.
    split; [cbn; congruence | exact Hsum].
  - cbn [bookings]. split.
    + rewrite map_app. cbn [map Bookings.booking_id].
      apply NoDup_snoc_fresh. exact Hnd.
    + unfold seats_of. cbn [flights].
      rewrite select_flight_update_seats, Hf. cbn [option_map].
      rewrite booked_seats_app. cbn [Bookings.flight_id Bookings.num_seats].
      rewrite Hfid. destruct (Z.eqb_spec fid fid0) as [E|E].
      * subst fid0. rewrite Hf in Hf0. injection Hf0 as <-.
        eexists. split; [reflexivity|]. rewrite Z.eqb_refl. cbn. lia.
      * eexists. split; [reflexivity|].
        replace (fid0 =? fid) with false; [lia|].
        symmetry. apply Z.eqb_neq. congruence.
  - cbn [books_no_negative] in Hop. apply Z.leb_le in Hop. lia.
  - split.
    + cbn [delete_booking add_seats bookings]. apply NoDup_filter_ids. exact Hnd.
    + unfold seats_of. cbn [delete_booking flights bookings].
      rewrite select_flight_add_seats, Hf. cbn [option_map].
      change (bookings (add_seats _ _ db)) with (bookings db).
      rewrite (booked_seats_delete fid b (bookings db) bk Hnd Hbk).
      rewrite Hfid. destruct (Z.eqb_spec fid (Bookings.flight_id bk)) as [E|E].
      * rewrite <- E, Z.eqb_refl. eexists. split; [reflexivity|]. cbn. lia.
      * eexists. split; [reflexivity|].
        replace (Bookings.flight_id bk =? fid) with false; [lia|].
        symmetry. apply Z.eqb_neq. congruence.
Qed.

Lemma conservation_run fid c ops : forall db,
  forallb books_no_negative ops = true ->
  NoDup (map Bookings.booking_id (bookings db)) ->
  (exists s, seats_of fid db = Some s
             /\ s + booked_seats fid (bookings db) = c) ->
  exists s, seats_of fid (run ops db) = Some s
            /\ s + booked_seats fid (bookings (run ops db)) = c.
Proof.
  induction ops as [|op ops IH]; intros db Hops Hnd Hinv; [exact Hinv|].
  cbn [forallb] in Hops. apply andb_prop in Hops. destruct Hops as [Hop Hops].
  destruct (conservation_step fid c db op Hop Hnd Hinv) as [Hnd' Hinv'].
  exact (IH (apply db op) Hops Hnd' Hinv').
Qed.

Lemma forallb_firstn {A} (p : A -> bool) k : forall l,
  forallb p l = true -> forallb p (firstn k l) = true.
Proof.
  induction k as [|k IH]; intros [|x l] H; try reflexivity.
  cbn [firstn forallb] in *. apply andb_prop in H. destruct H as [Hx Hl].
  rewrite Hx, (IH l Hl). reflexivity.
Qed.


Lemma booked_seats_no_booking fid bs :
  Forall (fun b => Bookings.flight_id b <> fid) bs -> booked_seats fid bs = 0.
Proof.
  induction 1 as [|b bs Hb _ IH]; cbn [booked_seats fold_right]; [reflexivity|].
  apply Z.eqb_neq in Hb. rewrite Hb. exact IH.
Qed.



(** ** [get_booking]: the join *)

Lemma filter_find {A} (p : A -> bool) l x :
  find p l = Some x -> exists rest, filter p l = x :: rest.
Proof.
  induction l as [|y l IH]; simpl; [discriminate|].
  destruct (p y); [intros [= ->]; eauto | exact IH].
Qed.

Lemma filter_find_none {A} (p : A -> bool) l :
  find p l = None -> filter p l = [].
Proof.
  induction l as [|y l IH]; simpl; [reflexivity|].
  destruct (p y); [discriminate | exact IH].
Qed.

Lemma get_booking_joined db b bk f :
  select_booking b (bookings db) = Some bk ->
  select_flight (Bookings.flight_id bk) (flights db) = Some f ->
  get_booking db b
  = Some (mkBookingInfo (Bookings.booking_id bk) (Flights.departure f)
            (Flights.destination f) (Flights.flight_date f)
            (Flights.flight_time f) (Bookings.passenger_name bk)
            (Bookings.num_seats bk) (Bookings.total_price bk) (Flights.price f)).
Proof.
  unfold get_booking, join_bookings_flights, select_booking.
  intros Hbk Hf. revert Hbk.
  induction (bookings db) as [|y bs IH]; simpl; [discriminate|].
  destruct (Bookings.booking_id y =? b).
  - intros [= ->]. apply filter_find in Hf. destruct Hf as [rest ->].
    reflexivity.
  - exact IH.
Qed.

Lemma get_booking_no_flight db b :
  (forall x, In x (bookings db) -> Bookings.booking_id x = b ->
             select_flight (Bookings.flight_id x) (flights db) = None) ->
  get_booking db b = None.
Proof.
  unfold get_booking, join_bookings_flights.
  induction (bookings db) as [|y bs IH]; simpl; [reflexivity|].
  intros H. destruct (Z.eqb_spec (Bookings.booking_id y) b) as [E|E].
  - rewrite (filter_find_none _ _ (H y (or_introl eq_refl) E)). simpl.
    apply IH. intros x Hx. apply H. right. exact Hx.
  - simpl. apply IH. intros x Hx. apply H. right. exact Hx.
Qed.

Lemma select_booking_unique b bs bk x :
  NoDup (map Bookings.booking_id bs) ->
  select_booking b bs = Some bk ->
  In x bs -> Bookings.booking_id x = b -> x = bk.
Proof.
  unfold select_booking.
  induction bs as [|y bs IH]; simpl; [discriminate|].
  intros Hnd Hsel Hin Hx. inversion Hnd as [|? ? Hnotin Hnd']; subst.
  destruct (Z.eqb_spec (Bookings.booking_id y) (Bookings.booking_id x)) as [E|E].
  - injection Hsel as <-. destruct Hin as [->|Hin]; [reflexivity|].
    exfalso. apply Hnotin. rewrite E. apply in_map. exact Hin.
  - destruct Hin as [->|Hin]; [congruence|]. exact (IH Hnd' Hsel Hin eq_refl).
Qed.

(** ** C10: a booking without its flight cannot be viewed *)

(** C10. With distinct booking ids, when the bookings table holds the id but
    the flights table has no row for that booking's flight_id, the join of
    [get_booking] is empty and fetchone() gives None, the value the viewer
    reports as "Booking not found." *)
Theorem get_booking_orphan db booking_id bk :
  NoDup (map Bookings.booking_id (bookings db)) ->
  select_booking booking_id (bookings db) = Some bk ->
  select_flight (Bookings.flight_id bk) (flights db) = None ->
  get_booking db booking_id = None.
Proof.
  intros Hnd Hbk Hf. apply get_booking_no_flight. intros x Hin Hx.
  rewrite (select_booking_unique booking_id (bookings db) bk x Hnd Hbk Hin Hx).
  exact Hf.
Qed.

Lemma get_booking_orphan_witness : get_booking orphan_db 1 = None.
Proof.
  apply (get_booking_orphan orphan_db 1
           (Bookings.mk 1 99 "A. Lee" 2 1500%float today)).
  - repeat constructor. simpl. tauto.
  - reflexivity.
  - reflexivity.
Defined.

(** ** C5: the price snapshot *)

Lemma select_flight_update_price p fid fid' db :
  PrimFloat.is_nan p = false ->
  select_flight fid' (flights (update_price p fid db))
  = option_map (fun f => if Flights.flight_id f =? fid
                         then Flights.set_price f (real_column p) else f)
               (select_flight fid' (flights db)).
Proof.
  intros Hp. unfold update_price; rewrite Hp; simpl. apply select_flight_map.
  intros f. destruct (Flights.flight_id f =? fid); reflexivity.
Qed.

Lemma bookings_update_price p fid db :
  bookings (update_price p fid db) = bookings db.
Proof. unfold update_price. destruct (PrimFloat.is_nan p); reflexivity. Qed.

Lemma static_flight_update_price p fid fid' db f :
  select_flight fid' (flights db) = Some f ->
  exists g, select_flight fid' (flights (update_price p fid db)) = Some g.
Proof.
  intros Hf. destruct (PrimFloat.is_nan p) eqn:Hp.
  - unfold update_price. rewrite Hp. eauto.
  - rewrite (select_flight_update_price _ _ _ _ Hp), Hf. cbn. eauto.
Qed.

(** A float that is not NaN equals, as floats compare, what a REAL column
    gives back for it. *)
Lemma real_column_eqb x :
  PrimFloat.is_nan x = false -> PrimFloat.eqb x (real_column x) = true.
Proof.
  intros Hx. unfold real_column.
  destruct (PrimFloat.is_zero x) eqn:Hz; [exact Hz|].
  unfold PrimFloat.is_nan in Hx. apply negb_false_iff in Hx. exact Hx.
Qed.

(** Python's [float(n)] on some ints: exact below 2^53, to the nearest even
    above. *)
Example float_of_int_values :
  float_of_int 2 = 2%float
  /\ float_of_int (-150) = (-150)%float
  /\ float_of_int 0 = 0%float
  /\ float_of_int 9007199254740993 = 9007199254740992%float
  /\ float_of_int 9007199254740995 = 9007199254740996%float
  /\ float_of_int 9223372036854775807 = 9223372036854775808%float
  /\ PrimFloat.is_infinity (float_of_int (2 ^ 1024)) = true
  /\ PrimFloat.is_infinity (float_of_int (2 ^ 1024 - 2 ^ 970 - 1)) = false.
Proof. vm_compute. repeat split; reflexivity. Qed.

(** C5. After a successful [book_flight] the row it stored, the one with id
    last_insert_rowid(), has as total_price the product of the price the
    flight had in the store the call started from and [num_seats] (the float
    product Python computes), as the REAL column gives it back: equal to the
    product as floats compare, a zero read as +0.0.  Whatever price any
    flight is given afterwards, the stored row is the same, and [get_booking]
    shows that total_price next to a price_per_seat read from the flight row
    as it is now. *)
Theorem price_snapshot today db flight_id passenger_name num_seats db' msg :
  book_flight today db flight_id passenger_name num_seats
  = (db', Return (true, msg)) ->
  exists f bk,
    select_flight flight_id (flights db) = Some f
    /\ select_booking (last_insert_rowid db') (bookings db') = Some bk
    /\ Bookings.total_price bk
       = real_column (PrimFloat.mul (Flights.price f) (float_of_int num_seats))
    /\ PrimFloat.eqb (PrimFloat.mul (Flights.price f) (float_of_int num_seats))
                     (Bookings.total_price bk) = true
    /\ forall p fid,
         select_booking (last_insert_rowid db') (bookings (update_price p fid db'))
         = Some bk
         /\ option_map t_price
              (get_booking (update_price p fid db') (last_insert_rowid db'))
            = Some (Bookings.total_price bk)
         /\ (PrimFloat.is_nan p = false ->
             option_map price_per_seat
               (get_booking (update_price p flight_id db') (last_insert_rowid db'))
             = Some (real_column p)).
Proof.
  intros H. apply book_flight_success in H.
  destruct H as [f [Hsel [_ [Hins _]]]].
  apply insert_booking_inr in Hins. destruct Hins as [Hnan ->].
  cbn [last_insert_rowid bookings].
  change (bookings (update_seats _ _ db)) with (bookings db).
  change (bookings_seq (update_seats _ _ db)) with (bookings_seq db).
  set (id := next_rowid (map Bookings.booking_id (bookings db)) (bookings_seq db)).
  set (bk := Bookings.mk id flight_id passenger_name num_seats
               (real_column (PrimFloat.mul (Flights.price f)
                                            (float_of_int num_seats))) today).
  set (d := mkDatabase (flights (update_seats (Flights.seats_available f - num_seats)
                                   flight_id db))
                       (bookings db ++ [bk]) (flights_seq db) id id).
  assert (Hbk : select_booking id (bookings db ++ [bk]) = Some bk).
  { apply select_booking_app_fresh; [apply next_rowid_fresh | reflexivity]. }
  pose proof (select_flight_id _ _ _ Hsel) as Hid.
  assert (Hd : select_flight flight_id (flights d)
               = Some (Flights.set_seats_available f
                         (Flights.seats_available f - num_seats))).
  { unfold d. cbn [flights]. rewrite select_flight_update_seats, Hsel.
    cbn [option_map]. rewrite Hid, Z.eqb_refl. reflexivity. }
  exists f, bk. split; [exact Hsel|]. split; [exact Hbk|].
  split; [reflexivity|]. split; [exact (real_column_eqb _ Hnan)|]. intros p fid.
  assert (Hbk' : forall q x,
            select_booking id (bookings (update_price q x d)) = Some bk).
  { intros q x. rewrite bookings_update_price. exact Hbk. }
  split; [apply Hbk'|]. split.
  - destruct (static_flight_update_price p fid flight_id d _ Hd) as [g Hg].
    rewrite (get_booking_joined _ id bk g); [reflexivity | apply Hbk' | exact Hg].
  - intros Hp.
    rewrite (get_booking_joined _ id bk
               (Flights.set_price
                  (Flights.set_seats_available f
                     (Flights.seats_available f - num_seats)) (real_column p)));
      [reflexivity | apply Hbk'|].
    etransitivity;
      [exact (select_flight_update_price p flight_id flight_id d Hp)|].
    rewrite Hd. cbn [option_map].
    cbn [Flights.flight_id Flights.set_seats_available].
    rewrite Hid, Z.eqb_refl. reflexivity.
Qed.

Lemma price_snapshot_witness :
  exists f bk,
    select_flight 1 (flights seed_db) = Some f
    /\ select_booking (last_insert_rowid booked_db) (bookings booked_db) = Some bk
    /\ Bookings.total_price bk
       = real_column (PrimFloat.mul (Flights.price f) (float_of_int 2))
    /\ PrimFloat.eqb (PrimFloat.mul (Flights.price f) (float_of_int 2))
                     (Bookings.total_price bk) = true
    /\ forall p fid,
         select_booking (last_insert_rowid booked_db)
                        (bookings (update_price p fid booked_db))
         = Some bk
         /\ option_map t_price
              (get_booking (update_price p fid booked_db)
                           (last_insert_rowid booked_db))
            = Some (Bookings.total_price bk)
         /\ (PrimFloat.is_nan p = false ->
             option_map price_per_seat
               (get_booking (update_price p 1 booked_db)
                            (last_insert_rowid booked_db))
             = Some (real_column p)).
Proof.
  exact (price_snapshot today seed_db 1 "A. Lee" 2 booked_db
           "Flight booked successfully!"%string eq_refl).
Defined.

Example price_snapshot_run :
  option_map (fun i => (t_price i, price_per_seat i))
             (get_booking (update_price 800%float 1 booked_db) 1)
  = Some (1500%float, 800%float).
Proof. vm_compute. reflexivity. Qed.

(** A product that is -0.0 is stored as +0.0: a flight of price -750 and a
    booking of 0 seats. *)
Example negative_zero_total :
  let db := fst (add_flight seed_db "Oslo" "Rome" "2025-08-01" "09:00"
                            (-750)%float 10) in
  PrimFloat.mul (-750)%float (float_of_int 0) = (-0)%float
  /\ option_map Bookings.total_price
       (select_booking 1 (bookings (fst (book_flight today db 6 "A. Lee" 0))))
     = Some 0%float.
Proof. vm_compute. split; reflexivity. Qed.

(** ** C6: where the booking request is validated *)

(** C6, as stated, fails: [book_flight] checks neither [num_seats] nor the
    passenger name.  On the seed store it books 0 seats for the empty name,
    and books -5 seats, which raises the flight's seats to 155. *)
Lemma book_flight_does_not_validate :
  snd (book_flight today seed_db 1 "" 0)
  = Return (true, "Flight booked successfully!"%string)
  /\ map (fun b => (Bookings.passenger_name b, Bookings.num_seats b))
         (bookings (fst (book_flight today seed_db 1 "" 0)))
     = [(""%string, 0)]
  /\ snd (book_flight today seed_db 1 "A. Lee" (-5))
     = Return (true, "Flight booked successfully!"%string)
  /\ seats_of 1 (fst (book_flight today seed_db 1 "A. Lee" (-5))) = Some 155.
Proof. vm_compute. repeat split; reflexivity. Qed.

(** C6, amended. The validation is in the handler of the Book button: when
    the passenger name is empty once stripped, or the seats field reads as an
    int that is not positive, [_book_flight_gui] shows an error dialog and the
    store is the one before; [book_flight] is not called.  This holds whatever
    [strip] and [int] compute. *)
Theorem book_flight_gui_validates
    (strip : string -> string) (int : string -> option Z)
    today db flight_id_entry passenger_name_entry num_seats_entry :
  strip passenger_name_entry = EmptyString
  \/ (exists n, int (strip num_seats_entry) = Some n /\ n <= 0) ->
  exists title message,
    _book_flight_gui strip int today db
      flight_id_entry passenger_name_entry num_seats_entry
    = (db, Return (showerror title message)).
Proof.
  intros H. unfold _book_flight_gui.
  destruct (negb (truthy (strip flight_id_entry))
            || negb (truthy (strip passenger_name_entry))
            || negb (truthy (strip num_seats_entry))) eqn:Hempty; [eauto|].
  apply orb_false_elim in Hempty. destruct Hempty as [Hempty _].
  apply orb_false_elim in Hempty. destruct Hempty as [_ Hname].
  destruct H as [H | [n [Hn Hle]]].
  - rewrite H in Hname. discriminate.
  - destruct (int (strip flight_id_entry)); [|unfold invalid_input; eauto].
    rewrite Hn. replace (n <=? 0) with true; [unfold invalid_input; eauto|].
    symmetry. apply Z.leb_le. exact Hle.
Qed.

Lemma book_flight_gui_validates_witness :
  (exists title message,
     _book_flight_gui strip_blanks int_of_decimal today seed_db "1" "  " "2"
     = (seed_db, Return (showerror title message)))
  /\ (exists title message,
        _book_flight_gui strip_blanks int_of_decimal today seed_db "1" "A. Lee" " -5 "
        = (seed_db, Return (showerror title message))).
Proof.
  split.
  - apply book_flight_gui_validates. left. reflexivity.
  - apply book_flight_gui_validates. right. exists (-5). split; [reflexivity | lia].
Defined.

Example book_flight_gui_run :
  snd (_book_flight_gui strip_blanks int_of_decimal today seed_db " 1" "A. Lee " "2")
  = Return (showinfo "Booking Success"
              ("Flight booked successfully!" ++ newline ++ "Your Booking ID is: 1"))
  /\ snd (_book_flight_gui strip_blanks int_of_decimal today seed_db "1" "A. Lee" "0")
     = Return invalid_input
  /\ snd (_book_flight_gui strip_blanks int_of_decimal today seed_db "1" "A. Lee" "200")
     = Return (showerror "Booking Failed"
                         "Not enough seats available. Only 150 seats left.").
Proof. vm_compute. repeat split; reflexivity. Qed.

(** ** C7: seats never negative *)

(** C7, as stated, fails for [book_flight] and [cancel_booking] called with
    any arguments: booking -5 seats, then the 155 seats there are, then
    cancelling the first booking leaves flight 1 with -5 seats. *)
Lemma negative_seats_reachable :
  seats_of 1 (run [Book today 1 "A. Lee" (-5); Book today 1 "B. Kim" 155; Cancel 1]
                  seed_db)
  = Some (-5).
Proof. vm_compute. reflexivity. Qed.

Lemma nonneg_step db op :
  (forall f, In f (flights db) -> 0 <= Flights.seats_available f) ->
  (forall b, In b (bookings db) -> 0 <= Bookings.num_seats b) ->
  books_no_negative op = true ->
  (forall f, In f (flights (apply db op)) -> 0 <= Flights.seats_available f)
  /\ (forall b, In b (bookings (apply db op)) -> 0 <= Bookings.num_seats b).
Proof.
  intros Hf Hb Hop.
  destruct (apply_cases db op)
    as [-> | [[today0 [fid [name [n [f0 [-> [Hf0 [Hle ->]]]]]]]]
           | [[today0 [fid [name [n [f0 [-> [Hf0 [Hn _]]]]]]]]
             | [b [bk [-> [Hbk ->]]]]]]].
  - split; assumption.
  - cbn [books_no_negative] in Hop. apply Z.leb_le in Hop.
    cbn [flights bookings update_seats]. split.
    + intros f Hin. apply in_map_iff in Hin. destruct Hin as [g [<- Hg]].
      destruct (Flights.flight_id g =? fid); [cbn; lia | exact (Hf g Hg)].
    + intros x Hin. apply in_app_or in Hin. destruct Hin as [Hin|[<-|[]]].
      * exact (Hb x Hin).
      * cbn. exact Hop.
  - cbn [books_no_negative] in Hop. apply Z.leb_le in Hop. lia.
  - apply find_some in Hbk. destruct Hbk as [Hbk _].
    cbn [delete_booking add_seats flights bookings]. split.
    + intros f Hin. apply in_map_iff in Hin. destruct Hin as [g [<- Hg]].
      specialize (Hf g Hg). specialize (Hb bk Hbk).
      destruct (Flights.flight_id g =? Bookings.flight_id bk); [cbn; lia | exact Hf].
    + intros x Hin. apply filter_In in Hin. exact (Hb x (proj1 Hin)).
Qed.

(** C7, amended. From a store in which no flight has negative seats and no
    booking a negative num_seats, any sequence of [cancel_booking] calls and
    of [book_flight] calls whose num_seats is not negative (the handler of the
    Book button passes positive ones only) leads to a store in which no
    flight has negative seats. *)
Theorem seats_never_negative ops : forall db,
  (forall f, In f (flights db) -> 0 <= Flights.seats_available f) ->
  (forall b, In b (bookings db) -> 0 <= Bookings.num_seats b) ->
  forallb books_no_negative ops = true ->
  forall f, In f (flights (run ops db)) -> 0 <= Flights.seats_available f.
Proof.
  induction ops as [|op ops IH]; intros db Hf Hb Hops; [exact Hf|].
  simpl in Hops. apply andb_prop in Hops. destruct Hops as [Hop Hops].
  destruct (nonneg_step db op Hf Hb Hop) as [Hf' Hb'].
  exact (IH (apply db op) Hf' Hb' Hops).
Qed.

Lemma seats_never_negative_witness :
  Forall (fun f => 0 <= Flights.seats_available f)
         (flights (run [Book today 1 "A. Lee" 150; Cancel 1; Book today 2 "B. Kim" 0]
                       seed_db)).
Proof.
  apply Forall_forall.
  apply (seats_never_negative
           [Book today 1 "A. Lee" 150; Cancel 1; Book today 2 "B. Kim" 0] seed_db).
  - intros f Hin. vm_compute in Hin.
    repeat (destruct Hin as [<-|Hin]; [cbn; lia|]). destruct Hin.
  - intros b [].
  - reflexivity.
Defined.

(** ** C8: cancelling a booking whose flight is gone *)

Lemma add_seats_no_flight n fid db :
  select_flight fid (flights db) = None ->
  flights (add_seats n fid db) = flights db.
Proof.
  unfold select_flight, add_seats. cbn [flights].
  induction (flights db) as [|f fs IH]; simpl; [reflexivity|].
  destruct (Flights.flight_id f =? fid); [discriminate|].
  intros H. f_equal. exact (IH H).
Qed.

(** C8, as stated, fails in its last part: [cancel_booking] has no warning.
    For the booking of [orphan_db], whose flight 99 does not exist, it
    returns the very pair it returns for an ordinary cancellation. *)
Lemma cancel_orphan_gives_no_warning :
  select_flight 99 (flights orphan_db) = None
  /\ snd (cancel_booking orphan_db 1)
     = Return (true, "Booking cancelled successfully!"%string)
  /\ snd (cancel_booking orphan_db 1) = snd (cancel_booking booked_db 1).
Proof. vm_compute. repeat split; reflexivity. Qed.

(** C8, amended. For a booking whose flight_id has no row in flights,
    [cancel_booking] does not fail: it returns True with the ordinary
    "Booking cancelled successfully!", the flights table is untouched, the
    booking is gone and every booking with another id is kept. *)
Theorem cancel_orphan_booking db booking_id bk :
  select_booking booking_id (bookings db) = Some bk ->
  select_flight (Bookings.flight_id bk) (flights db) = None ->
  exists db',
    cancel_booking db booking_id
    = (db', Return (true, "Booking cancelled successfully!"%string))
    /\ flights db' = flights db
    /\ select_booking booking_id (bookings db') = None
    /\ forall x, Bookings.booking_id x <> booking_id ->
                 (In x (bookings db') <-> In x (bookings db)).
Proof.
  intros Hbk Hf. unfold cancel_booking.
  rewrite (select_booking_bindable _ _ _ Hbk), Hbk. cbn [negb].
  eexists. split; [reflexivity|]. split; [|split].
  - cbn [delete_booking flights]. apply add_seats_no_flight. exact Hf.
  - apply select_booking_deleted.
  - intros x Hx. cbn [delete_booking add_seats bookings].
    rewrite filter_In. split; [tauto|]. intros Hin. split; [exact Hin|].
    apply negb_true_iff. apply Z.eqb_neq. exact Hx.
Qed.

Lemma cancel_orphan_booking_witness :
  exists db',
    cancel_booking orphan_db 1
    = (db', Return (true, "Booking cancelled successfully!"%string))
    /\ flights db' = flights orphan_db
    /\ select_booking 1 (bookings db') = None
    /\ forall x, Bookings.booking_id x <> 1 ->
                 (In x (bookings db') <-> In x (bookings orphan_db)).
Proof.
  exact (cancel_orphan_booking orphan_db 1
           (Bookings.mk 1 99 "A. Lee" 2 1500%float today) eq_refl eq_refl).
Defined.

(** ** C9: searching *)

Lemma like_percent_nil p : like (String "%" p) EmptyString = like p EmptyString.
Proof. simpl. apply orb_false_r. Qed.

Lemma like_percent_cons p c s :
  like (String "%" p) (String c s)
  = like p (String c s) || like (String "%" p) s.
Proof. reflexivity. Qed.

Lemma like_percent_all s : like "%" s = true.
Proof.
  induction s as [|c s IH]; [reflexivity|].
  rewrite like_percent_cons, IH. apply orb_true_r.
Qed.

Lemma like_plain_prefix x :
  no_wildcard x = true -> forall s, like (x ++ "%") s = ci_prefix x s.
Proof.
  induction x as [|a x IH]; intros Hx s.
  - apply like_percent_all.
  - simpl in Hx. apply andb_prop in Hx. destruct Hx as [Hx Hx'].
    apply andb_prop in Hx. destruct Hx as [Hp Hu].
    apply negb_true_iff in Hp. apply negb_true_iff in Hu.
    cbn [append like]. rewrite Hp, Hu.
    destruct s as [|b s]; [reflexivity|].
    cbn [ci_prefix orb]. rewrite (IH Hx'). reflexivity.
Qed.

Lemma like_contains x :
  no_wildcard x = true ->
  forall s, like ("%" ++ x ++ "%") s = ci_contains x s.
Proof.
  intros Hx s. change ("%" ++ x ++ "%")%string with (String "%" (x ++ "%")).
  induction s as [|c s IH].
  - rewrite like_percent_nil, (like_plain_prefix x Hx). simpl.
    symmetry. apply orb_false_r.
  - rewrite like_percent_cons, IH, (like_plain_prefix x Hx). reflexivity.
Qed.

Lemma ci_prefix_spec x : forall s,
  ci_prefix x s = true
  <-> exists post, lower_string s = (lower_string x ++ post)%string.
Proof.
  induction x as [|a x IH]; intros s.
  - simpl. split; [intros _; exists (lower_string s); reflexivity | reflexivity].
  - destruct s as [|b s]; simpl.
    + split; [discriminate | intros [post H]; discriminate].
    + rewrite andb_true_iff, Ascii.eqb_eq, IH. split.
      * intros [-> [post ->]]. exists post. reflexivity.
      * intros [post H]. injection H as -> H. split; [reflexivity|].
        exists post. exact H.
Qed.

Lemma ci_contains_spec x : forall s,
  ci_contains x s = true
  <-> exists pre post,
        lower_string s = (pre ++ lower_string x ++ post)%string.
Proof.
  induction s as [|c s IH].
  - simpl. rewrite orb_false_r, ci_prefix_spec. split.
    + intros [post H]. exists EmptyString, post. exact H.
    + intros [pre [post H]]. destruct pre; [|discriminate]. exists post. exact H.
  - cbn [ci_contains]. rewrite orb_true_iff, ci_prefix_spec, IH. split.
    + intros [[post H] | [pre [post H]]].
      * exists EmptyString, post. exact H.
      * exists (String (lower c) pre), post. simpl. rewrite H. reflexivity.
    + intros [pre [post H]]. destruct pre as [|d pre].
      * left. exists post. exact H.
      * right. simpl in H. injection H as _ H. exists pre, post. exact H.
Qed.

Lemma search_where_spec departure destination date f :
  no_wildcard departure = true -> no_wildcard destination = true ->
  search_where departure destination date f
  = search_spec departure destination date f.
Proof.
  intros Hdep Hdest. unfold search_where, search_spec.
  rewrite (like_contains departure Hdep), (like_contains destination Hdest).
  reflexivity.
Qed.




Example search_flights_run :
  map Flights.flight_id (search_flights seed_db "yOrk" "o" "2025-07-10") = [4]
  /\ map Flights.flight_id (search_flights seed_db "" "PARIS" "") = [2]
  /\ map Flights.flight_id (search_flights seed_db "" "" "2025-07-03") = [3]
  /\ search_flights seed_db "" "" "2025-7-3" = [].
Proof. vm_compute. repeat split; reflexivity. Qed.


(** * Further properties of the database layer *)

(** ** What [book_flight] does and does not do *)

Lemma select_flight_other (g : Flights.row -> Flights.row) fid fid' fs :
  (forall f, Flights.flight_id (g f) = Flights.flight_id f) ->
  fid' <> fid ->
  select_flight fid'
    (map (fun f => if Flights.flight_id f =? fid then g f else f) fs)
  = select_flight fid' fs.
Proof.
  intros Hg Hne. unfold select_flight.
  induction fs as [|f fs IH]; simpl; [reflexivity|].
  destruct (Z.eqb_spec (Flights.flight_id f) fid) as [E|E].
  - rewrite Hg.
    destruct (Z.eqb_spec (Flights.flight_id f) fid') as [E'|E']; [congruence|].
    exact IH.
  - destruct (Flights.flight_id f =? fid'); [reflexivity | exact IH].
Qed.

Lemma static_columns_map (g : Flights.row -> Flights.row) fs :
  (forall f, static_columns (g f) = static_columns f) ->
  map static_columns (map g fs) = map static_columns fs.
Proof.
  intros Hg. rewrite map_map. apply map_ext. exact Hg.
Qed.

Lemma static_columns_update_seats s fid db :
  map static_columns (flights (update_seats s fid db))
  = map static_columns (flights db).
Proof.
  unfold update_seats; cbn [flights]. apply static_columns_map.
  intros f. destruct (Flights.flight_id f =? fid); reflexivity.
Qed.

Lemma static_columns_add_seats n fid db :
  map static_columns (flights (add_seats n fid db))
  = map static_columns (flights db).
Proof.
  unfold add_seats; cbn [flights]. apply static_columns_map.
  intros f. destruct (Flights.flight_id f =? fid); reflexivity.
Qed.

Lemma select_flight_absent_bindable fid fs :
  select_flight fid fs = None -> bindable fid (map Flights.flight_id fs) = int64 fid.
Proof.
  intros H. unfold bindable.
  replace (existsb (Z.eqb fid) (map Flights.flight_id fs)) with false;
    [apply orb_false_r|].
  symmetry. apply not_true_is_false. intros Hex.
  apply existsb_exists in Hex. destruct Hex as [x [Hin Hx]].
  apply Z.eqb_eq in Hx. subst x. apply in_map_iff in Hin.
  destruct Hin as [f [Hid Hin]].
  unfold select_flight in H.
  apply (find_none _ _ H) in Hin. rewrite Hid, Z.eqb_refl in Hin. discriminate.
Qed.

Lemma book_flight_returns_true today db fid name n :
  snd (book_flight today db fid name n)
  = Return (true, "Flight booked successfully!"%string)
  <-> exists f, select_flight fid (flights db) = Some f
                /\ n <= Flights.seats_available f
                /\ -9223372036854775808 <= n
                /\ PrimFloat.is_infinity (float_of_int n) = false
                /\ int64 (Flights.seats_available f - n) = true
                /\ PrimFloat.is_nan
                     (PrimFloat.mul (Flights.price f) (float_of_int n))
                   = false.
Proof.
  unfold book_flight.
  destruct (select_flight fid (flights db)) as [f|] eqn:Hf.
  - rewrite (select_flight_bindable _ _ _ Hf). cbn [negb].
    unfold insert_booking. rewrite Z.gtb_ltb.
    destruct (Z.ltb_spec (Flights.seats_available f) n) as [Hgt|Hle];
      [|destruct (PrimFloat.is_infinity (float_of_int n)) eqn:Hinf;
        [|destruct (int64 (Flights.seats_available f - n)) eqn:Hfit;
          [destruct (Z.ltb_spec n (-9223372036854775808)) as [Hlt|Hge];
           [|destruct (PrimFloat.is_nan
                         (PrimFloat.mul (Flights.price f) (float_of_int n)))
               eqn:Hnan]|]]];
      cbn [negb snd]; split;
      try discriminate;
      try (intros [g [[= <-] [H1 [H2 [H3 [H4 H5]]]]]]; exfalso;
           solve [lia | congruence]).
    + intros _. exists f. repeat split; assumption.
    + intros _. reflexivity.
  - split; [|intros [g [Hg _]]; discriminate].
    destruct (negb (bindable fid (map Flights.flight_id (flights db))));
      discriminate.
Qed.



(** The outcomes of [book_flight] on the seed data: the rollback branch (a
    flight of infinite price and 0 seats asked), a flight id of more than 64
    bits, a [num_seats] that leaves more seats than 64 bits hold, and one too
    large for a float. *)
Example book_flight_rollback :
  let db := fst (add_flight seed_db "Oslo" "Rome" "2025-08-01" "09:00" infinity 10) in
  book_flight today db 6 "A. Lee" 0
  = (db, Return (false,
          "Error booking flight: NOT NULL constraint failed: bookings.total_price"%string)).
Proof. vm_compute. reflexivity. Qed.

Example book_flight_raises :
  book_flight today seed_db (2 ^ 70) "A. Lee" 1 = (seed_db, Raise OverflowError)
  /\ snd (book_flight today seed_db 1 "A. Lee" (-9223372036854775808))
     = Raise OverflowError
  /\ seats_of 1 (fst (book_flight today seed_db 1 "A. Lee" (-9223372036854775808)))
     = Some 150
  /\ snd (book_flight today seed_db 1 "A. Lee" (-9223372036854775809))
     = Raise OverflowError
  /\ snd (book_flight today seed_db 1 "A. Lee" (- 2 ^ 1024))
     = Raise OverflowError
  /\ fst (book_flight today seed_db 1 "A. Lee" (- 2 ^ 1024)) = seed_db.
Proof. vm_compute. repeat split; reflexivity. Qed.

(** X2. What a successful [book_flight] changes: one row is appended to
    bookings, with a new id, the arguments of the call and as total_price the
    product of the flight's price and [num_seats] as the REAL column gives it
    back (a zero as +0.0); the flight booked has [num_seats] seats fewer;
    every other flight is found as before, and no flight is added, removed or
    changed in its id, route, date, time or price. *)
Theorem book_flight_effect today db flight_id passenger_name num_seats db' msg :
  book_flight today db flight_id passenger_name num_seats
  = (db', Return (true, msg)) ->
  exists f,
    select_flight flight_id (flights db) = Some f
    /\ bookings db'
       = (bookings db
          ++ [Bookings.mk (last_insert_rowid db') flight_id passenger_name num_seats
                (real_column
                   (PrimFloat.mul (Flights.price f) (float_of_int num_seats)))
                today])%list
    /\ ~ In (last_insert_rowid db') (map Bookings.booking_id (bookings db))
    /\ seats_of flight_id db' = Some (Flights.seats_available f - num_seats)
    /\ (forall other, other <> flight_id ->
          select_flight other (flights db') = select_flight other (flights db))
    /\ map static_columns (flights db') = map static_columns (flights db).
Proof.
  intros H. apply book_flight_success in H.
  destruct H as [f [Hsel [_ [Hins _]]]].
  apply insert_booking_inr in Hins. destruct Hins as [_ ->].
  cbn [last_insert_rowid bookings flights].
  change (bookings (update_seats _ _ db)) with (bookings db).
  change (bookings_seq (update_seats _ _ db)) with (bookings_seq db).
  exists f. split; [exact Hsel|]. split; [reflexivity|].
  split; [apply next_rowid_fresh|]. split; [|split].
  - unfold seats_of. cbn [flights].
    rewrite select_flight_update_seats, Hsel. cbn [option_map].
    rewrite (select_flight_id _ _ _ Hsel), Z.eqb_refl. reflexivity.
  - intros other Hne. unfold update_seats. cbn [flights].
    apply select_flight_other; [reflexivity | exact Hne].
  - apply static_columns_update_seats.
Qed.

Lemma book_flight_effect_witness :
  exists f,
    select_flight 1 (flights seed_db) = Some f
    /\ bookings booked_db
       = (bookings seed_db
          ++ [Bookings.mk (last_insert_rowid booked_db) 1 "A. Lee" 2
                (real_column (PrimFloat.mul (Flights.price f) (float_of_int 2)))
                today])%list
    /\ ~ In (last_insert_rowid booked_db) (map Bookings.booking_id (bookings seed_db))
    /\ seats_of 1 booked_db = Some (Flights.seats_available f - 2)
    /\ (forall other, other <> 1 ->
          select_flight other (flights booked_db)
          = select_flight other (flights seed_db))
    /\ map static_columns (flights booked_db) = map static_columns (flights seed_db).
Proof.
  exact (book_flight_effect today seed_db 1 "A. Lee" 2 booked_db
           "Flight booked successfully!"%string eq_refl).
Defined.

(** The total of 0 seats on a flight of negative price is stored as +0.0,
    not as the -0.0 Python computed. *)
Example book_flight_effect_zero :
  let db := fst (add_flight seed_db "Oslo" "Rome" "2025-08-01" "09:00"
                            (-750)%float 10) in
  snd (book_flight today db 6 "A. Lee" 0)
  = Return (true, "Flight booked successfully!"%string)
  /\ map Bookings.total_price (bookings (fst (book_flight today db 6 "A. Lee" 0)))
     = [0%float]
  /\ option_map t_price (get_booking (fst (book_flight today db 6 "A. Lee" 0)) 1)
     = Some 0%float
  /\ PrimFloat.mul (-750)%float (float_of_int 0) <> 0%float.
Proof. vm_compute. repeat split; try reflexivity. discriminate. Qed.

(** ** What [cancel_booking] changes *)

Lemma select_booking_filter_other b b' bs :
  b' <> b ->
  select_booking b' (filter (fun x => negb (Bookings.booking_id x =? b)) bs)
  = select_booking b' bs.
Proof.
  intros Hne. unfold select_booking.
  induction bs as [|y bs IH]; simpl; [reflexivity|].
  destruct (Z.eqb_spec (Bookings.booking_id y) b) as [E|E]; simpl.
  - destruct (Z.eqb_spec (Bookings.booking_id y) b') as [E'|E']; [congruence|].
    exact IH.
  - destruct (Bookings.booking_id y =? b'); [reflexivity | exact IH].
Qed.



(** ** What [get_booking] shows *)

Lemma join_as_filter b db :
  join_bookings_flights b db
  = flat_map
      (fun x => map (booking_info_of x)
                    (filter (fun f => Flights.flight_id f =? Bookings.flight_id x)
                            (flights db)))
      (filter (fun x => Bookings.booking_id x =? b) (bookings db)).
Proof.
  unfold join_bookings_flights.
  induction (bookings db) as [|y bs IH]; simpl; [reflexivity|].
  destruct (Bookings.booking_id y =? b); simpl; rewrite IH; reflexivity.
Qed.

Lemma join_row_static x k fs : forall fs',
  map static_columns fs' = map static_columns fs ->
  map (booking_info_of x) (filter (fun f => Flights.flight_id f =? k) fs')
  = map (booking_info_of x) (filter (fun f => Flights.flight_id f =? k) fs).
Proof.
  induction fs as [|f fs IH]; intros [|f' fs'] H; simpl in H; try discriminate;
    [reflexivity|].
  injection H as Hid Hdep Hdest Hdate Htime Hprice Hfs.
  specialize (IH fs' Hfs). simpl. rewrite Hid. destruct (Flights.flight_id f =? k); [|exact IH].
  simpl. rewrite IH. f_equal. unfold booking_info_of. congruence.
Qed.

Lemma get_booking_static b db1 db2 :
  map static_columns (flights db1) = map static_columns (flights db2) ->
  filter (fun x => Bookings.booking_id x =? b) (bookings db1)
  = filter (fun x => Bookings.booking_id x =? b) (bookings db2) ->
  get_booking db1 b = get_booking db2 b.
Proof.
  intros Hf Hb. unfold get_booking. rewrite !join_as_filter, Hb. f_equal.
  apply flat_map_ext. intros x. apply join_row_static. exact Hf.
Qed.

Lemma filter_id_delete_other b b' bs :
  b' <> b ->
  filter (fun x => Bookings.booking_id x =? b')
         (filter (fun x => negb (Bookings.booking_id x =? b)) bs)
  = filter (fun x => Bookings.booking_id x =? b') bs.
Proof.
  intros Hne. induction bs as [|y bs IH]; simpl; [reflexivity|].
  destruct (Z.eqb_spec (Bookings.booking_id y) b) as [E|E]; simpl.
  - destruct (Z.eqb_spec (Bookings.booking_id y) b') as [E'|E']; [congruence|].
    exact IH.
  - rewrite IH. reflexivity.
Qed.

(** X4. After a successful [book_flight], [get_booking] of the new id
    returns the booking as it was asked for, with the total price as the
    REAL column gives it back (a zero as +0.0), next to the route, date, time
    and price of its flight; what [get_booking] returns for every other id is
    what it returned before. *)
Theorem get_booking_after_book today db flight_id passenger_name num_seats db' msg :
  book_flight today db flight_id passenger_name num_seats
  = (db', Return (true, msg)) ->
  exists f,
    select_flight flight_id (flights db) = Some f
    /\ get_booking db' (last_insert_rowid db')
       = Some (mkBookingInfo (last_insert_rowid db') (Flights.departure f)
                 (Flights.destination f) (Flights.flight_date f)
                 (Flights.flight_time f) passenger_name num_seats
                 (real_column
                    (PrimFloat.mul (Flights.price f) (float_of_int num_seats)))
                 (Flights.price f))
    /\ forall other, other <> last_insert_rowid db' ->
         get_booking db' other = get_booking db other.
Proof.
  intros H. pose proof (book_flight_success _ _ _ _ _ _ _ H) as Hs.
  destruct Hs as [f [Hsel [_ [Hins _]]]].
  apply insert_booking_inr in Hins. destruct Hins as [_ Hdb'].
  revert Hdb'.
  change (bookings (update_seats (Flights.seats_available f - num_seats) flight_id db))
    with (bookings db).
  change (bookings_seq (update_seats (Flights.seats_available f - num_seats) flight_id db))
    with (bookings_seq db).
  change (flights_seq (update_seats (Flights.seats_available f - num_seats) flight_id db))
    with (flights_seq db).
  set (id := next_rowid (map Bookings.booking_id (bookings db)) (bookings_seq db)).
  intros ->. cbn [last_insert_rowid].
  set (bk := Bookings.mk id flight_id passenger_name num_seats
               (real_column
                  (PrimFloat.mul (Flights.price f) (float_of_int num_seats)))
               today).
  exists f. split; [exact Hsel|]. split.
  - rewrite (get_booking_joined _ id bk
               (Flights.set_seats_available f (Flights.seats_available f - num_seats))).
    + reflexivity.
    + cbn [bookings]. apply select_booking_app_fresh;
        [apply next_rowid_fresh | reflexivity].
    + subst bk. cbn [flights Bookings.flight_id].
      rewrite select_flight_update_seats, Hsel. cbn [option_map].
      rewrite (select_flight_id _ _ _ Hsel), Z.eqb_refl. reflexivity.
  - intros other Hne. apply get_booking_static.
    + cbn [flights]. apply static_columns_update_seats.
    + cbn [bookings]. rewrite filter_app. subst bk.
      cbn [filter Bookings.booking_id].
      replace (id =? other) with false; [apply app_nil_r|].
      symmetry. apply Z.eqb_neq. congruence.
Qed.

Lemma get_booking_after_book_witness :
  exists f,
    select_flight 1 (flights seed_db) = Some f
    /\ get_booking booked_db (last_insert_rowid booked_db)
       = Some (mkBookingInfo (last_insert_rowid booked_db) (Flights.departure f)
                 (Flights.destination f) (Flights.flight_date f)
                 (Flights.flight_time f) "A. Lee" 2
                 (real_column (PrimFloat.mul (Flights.price f) (float_of_int 2)))
                 (Flights.price f))
    /\ forall other, other <> last_insert_rowid booked_db ->
         get_booking booked_db other = get_booking seed_db other.
Proof.
  exact (get_booking_after_book today seed_db 1 "A. Lee" 2 booked_db
           "Flight booked successfully!"%string eq_refl).
Defined.

(** X5. After a successful [cancel_booking], [get_booking] of that id
    returns None, and what it returns for every other id is what it returned
    before: the seats given back do not show in any booking. *)
Theorem get_booking_after_cancel db booking_id db' msg :
  cancel_booking db booking_id = (db', Return (true, msg)) ->
  get_booking db' booking_id = None
  /\ forall other, other <> booking_id ->
       get_booking db' other = get_booking db other.
Proof.
  intros H. apply cancel_booking_success in H. destruct H as [bk [Hbk [-> _]]].
  split.
  - apply get_booking_no_flight. intros x Hin Hx. exfalso.
    cbn [delete_booking bookings] in Hin. apply filter_In in Hin.
    destruct Hin as [_ Hin]. rewrite Hx, Z.eqb_refl in Hin. discriminate.
  - intros other Hne. apply get_booking_static.
    + cbn [delete_booking flights]. apply static_columns_add_seats.
    + cbn [delete_booking add_seats bookings].
      apply filter_id_delete_other. exact Hne.
Qed.

Lemma get_booking_after_cancel_witness :
  get_booking (fst (cancel_booking booked_db 1)) 1 = None
  /\ forall other, other <> 1 ->
       get_booking (fst (cancel_booking booked_db 1)) other
       = get_booking booked_db other.
Proof.
  exact (get_booking_after_cancel booked_db 1 (fst (cancel_booking booked_db 1))
           "Booking cancelled successfully!"%string eq_refl).
Defined.

(** ** [add_flight] and the seed data *)

Lemma select_flight_none_iff k fs :
  select_flight k fs = None <-> ~ In k (map Flights.flight_id fs).
Proof.
  unfold select_flight. induction fs as [|x fs IH]; simpl; [tauto|].
  destruct (Z.eqb_spec (Flights.flight_id x) k) as [E|E].
  - split; [discriminate | intros H; exfalso; apply H; left; exact E].
  - rewrite IH. tauto.
Qed.

Lemma select_flight_app k fs gs :
  select_flight k (fs ++ gs)
  = match select_flight k fs with
    | Some f => Some f
    | None => select_flight k gs
    end.
Proof.
  unfold select_flight. induction fs as [|x fs IH]; simpl; [reflexivity|].
  destruct (Flights.flight_id x =? k); [reflexivity | exact IH].
Qed.

Lemma add_flight_inv db dep dest day time price seats db' r :
  add_flight db dep dest day time price seats = (db', r) ->
  (r = Raise OverflowError /\ db' = db /\ int64 seats = false)
  \/ (r = Return false /\ db' = db
      /\ int64 seats = true /\ PrimFloat.is_nan price = true)
  \/ (r = Return true /\ int64 seats = true /\ PrimFloat.is_nan price = false
      /\ db' = mkDatabase
                 (flights db ++
                    [Flights.mk
                       (next_rowid (map Flights.flight_id (flights db)) (flights_seq db))
                       dep dest day time (real_column price) seats])
                 (bookings db)
                 (next_rowid (map Flights.flight_id (flights db)) (flights_seq db))
                 (bookings_seq db)
                 (next_rowid (map Flights.flight_id (flights db)) (flights_seq db))).
Proof.
  unfold add_flight, insert_flight.
  destruct (int64 seats); cbn [negb];
    [destruct (PrimFloat.is_nan price)|]; intros [= <- <-];
    [right; left | right; right | left]; repeat split; reflexivity.
Qed.

(** X6. [add_flight] raises OverflowError when [seats] does not fit 64
    bits, returns False when the price is NaN, and True otherwise; unless it
    returns True the store is untouched.  On True the new flight is found
    under last_insert_rowid() with the values of the call, the price as the
    REAL column gives it back (a zero as +0.0); that id was not in use, every
    flight there before is found as before, and bookings are untouched. *)
Theorem add_flight_effect db departure destination date time price seats db' r :
  add_flight db departure destination date time price seats = (db', r) ->
  r = (if int64 seats then Return (negb (PrimFloat.is_nan price))
       else Raise OverflowError)
  /\ (r <> Return true -> db' = db)
  /\ (r = Return true ->
      select_flight (last_insert_rowid db') (flights db')
      = Some (Flights.mk (last_insert_rowid db') departure destination date time
                (real_column price) seats)
      /\ ~ In (last_insert_rowid db') (map Flights.flight_id (flights db))
      /\ (forall other, other <> last_insert_rowid db' ->
            select_flight other (flights db') = select_flight other (flights db))
      /\ bookings db' = bookings db).
Proof.
  intros H. apply add_flight_inv in H.
  destruct H as [[-> [-> Hfit]] | [[-> [-> [Hfit Hnan]]] | [-> [Hfit [Hnan ->]]]]];
    rewrite Hfit; try rewrite Hnan; cbn [negb].
  - split; [reflexivity|]. split; [reflexivity | discriminate].
  - split; [reflexivity|]. split; [reflexivity | discriminate].
  - split; [reflexivity|]. split; [intros Hne; exfalso; apply Hne; reflexivity|].
    intros _. cbn [last_insert_rowid flights bookings].
    set (id := next_rowid (map Flights.flight_id (flights db)) (flights_seq db)).
    assert (Hfresh : ~ In id (map Flights.flight_id (flights db)))
      by apply next_rowid_fresh.
    split; [|split; [exact Hfresh|split; [|reflexivity]]].
    + rewrite select_flight_app.
      rewrite (proj2 (select_flight_none_iff id (flights db)) Hfresh).
      unfold select_flight. cbn. rewrite Z.eqb_refl. reflexivity.
    + intros other Hne. rewrite select_flight_app.
      destruct (select_flight other (flights db)); [reflexivity|].
      unfold select_flight. cbn.
      replace (id =? other) with false; [reflexivity|].
      symmetry. apply Z.eqb_neq. congruence.
Qed.

Lemma add_flight_effect_witness :
  Return true = (if int64 60 then Return (negb (PrimFloat.is_nan 300%float))
                 else Raise OverflowError)
  /\ (Return true <> Return true ->
      fst (add_flight seed_db "Rome" "Oslo" "2025-08-01" "09:00" 300%float 60)
      = seed_db)
  /\ (Return true = Return true ->
      select_flight 6
        (flights (fst (add_flight seed_db "Rome" "Oslo" "2025-08-01" "09:00"
                                  300%float 60)))
      = Some (Flights.mk 6 "Rome" "Oslo" "2025-08-01" "09:00"
                (real_column 300%float) 60)
      /\ ~ In 6 (map Flights.flight_id (flights seed_db))
      /\ (forall other, other <> 6 ->
            select_flight other
              (flights (fst (add_flight seed_db "Rome" "Oslo" "2025-08-01" "09:00"
                                        300%float 60)))
            = select_flight other (flights seed_db))
      /\ bookings (fst (add_flight seed_db "Rome" "Oslo" "2025-08-01" "09:00"
                                   300%float 60))
         = bookings seed_db).
Proof.
  exact (add_flight_effect seed_db "Rome" "Oslo" "2025-08-01" "09:00" 300%float 60
           (fst (add_flight seed_db "Rome" "Oslo" "2025-08-01" "09:00" 300%float 60))
           (Return true) eq_refl).
Defined.

(** [add_flight] on the seed data: seats of more than 64 bits, a NaN price,
    and a price of -0.0, which is stored as +0.0. *)
Example add_flight_run :
  add_flight seed_db "Rome" "Oslo" "2025-08-01" "09:00" 300%float (2 ^ 63)
  = (seed_db, Raise OverflowError)
  /\ add_flight seed_db "Rome" "Oslo" "2025-08-01" "09:00" nan 60
     = (seed_db, Return false)
  /\ snd (add_flight seed_db "Rome" "Oslo" "2025-08-01" "09:00" (-0)%float 60)
     = Return true
  /\ option_map Flights.price
       (select_flight 6
          (flights (fst (add_flight seed_db "Rome" "Oslo" "2025-08-01" "09:00"
                                    (-0)%float 60))))
     = Some 0%float
  /\ (-0)%float <> 0%float.
Proof. vm_compute. repeat split; try reflexivity. discriminate. Qed.

Lemma seed_rows_fold (rows : list (string * string * string * string * float * Z)) :
  forallb (fun '(_, _, _, _, price, seats) =>
             negb (PrimFloat.is_nan price) && int64 seats) rows = true ->
  forall d,
    bookings
      (fold_left
         (fun d0 '(dep, dest, date, time, price, seats) =>
            match insert_flight dep dest date time price seats d0 with
            | Return (inr d1) => d1
            | _ => d0
            end)
         rows d)
    = bookings d
    /\ List.length
         (flights
            (fold_left
               (fun d0 '(dep, dest, date, time, price, seats) =>
                  match insert_flight dep dest date time price seats d0 with
                  | Return (inr d1) => d1
                  | _ => d0
                  end)
               rows d))
       = (List.length (flights d) + List.length rows)%nat.
Proof.
  induction rows as [|[[[[[dep dest] day] time] price] seats] rows IH];
    intros Hrows d; cbn [fold_left List.length].
  - split; [reflexivity | lia].
  - cbn [forallb] in Hrows. apply andb_prop in Hrows. destruct Hrows as [Hp Hrows].
    apply andb_prop in Hp. destruct Hp as [Hp Hfit].
    apply negb_true_iff in Hp.
    assert (Hins : insert_flight dep dest day time price seats d
                   = Return
                       (inr (mkDatabase
                               (flights d ++
                                  [Flights.mk
                                     (next_rowid (map Flights.flight_id (flights d))
                                                 (flights_seq d))
                                     dep dest day time (real_column price) seats])
                               (bookings d)
                               (next_rowid (map Flights.flight_id (flights d))
                                           (flights_seq d))
                               (bookings_seq d)
                               (next_rowid (map Flights.flight_id (flights d))
                                           (flights_seq d))))).
    { unfold insert_flight. rewrite Hfit, Hp. reflexivity. }
    rewrite Hins. destruct (IH Hrows
                (mkDatabase
                   (flights d ++
                      [Flights.mk
                         (next_rowid (map Flights.flight_id (flights d)) (flights_seq d))
                         dep dest day time (real_column price) seats])
                   (bookings d)
                   (next_rowid (map Flights.flight_id (flights d)) (flights_seq d))
                   (bookings_seq d)
                   (next_rowid (map Flights.flight_id (flights d)) (flights_seq d))))
      as [Hb Hl].
    cbn [bookings flights] in Hb, Hl. split; [exact Hb|].
    rewrite Hl, length_app. cbn [List.length]. lia.
Qed.

(** X7. [init_db] seeds the five flights only into an empty flights table:
    a store that has a flight is returned as it is, running [init_db] a
    second time changes nothing, and bookings are never touched. *)
Theorem init_db_idempotent db :
  init_db (init_db db) = init_db db
  /\ (flights db <> [] -> init_db db = db)
  /\ bookings (init_db db) = bookings db
  /\ (flights db = [] -> List.length (flights (init_db db)) = 5%nat).
Proof.
  assert (Hfull : forall d, flights d <> [] -> init_db d = d).
  { intros d Hd. unfold init_db, _add_dummy_data_if_empty.
    destruct (flights d) as [|f fs]; [contradiction | reflexivity]. }
  assert (Hseed : forall d, flights d = [] ->
            bookings (init_db d) = bookings d
            /\ List.length (flights (init_db d)) = 5%nat).
  { intros d Hd. unfold init_db, _add_dummy_data_if_empty. rewrite Hd.
    cbn [List.length Z.of_nat Z.eqb].
    destruct (seed_rows_fold dummy_flights eq_refl d) as [Hb Hl].
    rewrite Hd in Hl. split; [exact Hb | exact Hl]. }
  destruct (flights db) as [|f fs] eqn:Hfl.
  - destruct (Hseed db Hfl) as [Hb Hl].
    split; [|split; [intros H; contradiction | split; [exact Hb | intros _; exact Hl]]].
    apply Hfull. intros Hnil. rewrite Hnil in Hl. discriminate.
  - assert (Hne : flights db <> []) by (rewrite Hfl; discriminate).
    rewrite !(Hfull db Hne).
    split; [reflexivity|]. split; [reflexivity|]. split; [reflexivity | discriminate].
Qed.

Lemma init_db_idempotent_witness :
  init_db (init_db booked_db) = init_db booked_db
  /\ (flights booked_db <> [] -> init_db booked_db = booked_db)
  /\ bookings (init_db booked_db) = bookings booked_db
  /\ (flights booked_db = [] -> List.length (flights (init_db booked_db)) = 5%nat).
Proof. exact (init_db_idempotent booked_db). Defined.

(** ** Invariants of any sequence of calls *)

Lemma call_apply_cases db c :
  call_apply db c = db
  \/ (exists dep dest day time price seats,
        call_apply db c
        = mkDatabase
            (flights db ++
               [Flights.mk
                  (next_rowid (map Flights.flight_id (flights db)) (flights_seq db))
                  dep dest day time price seats])
            (bookings db)
            (next_rowid (map Flights.flight_id (flights db)) (flights_seq db))
            (bookings_seq db)
            (next_rowid (map Flights.flight_id (flights db)) (flights_seq db)))
  \/ (exists today fid name n f,
        select_flight fid (flights db) = Some f
        /\ call_apply db c
           = mkDatabase
               (flights (update_seats (Flights.seats_available f - n) fid db))
               (bookings db ++
                  [Bookings.mk
                     (next_rowid (map Bookings.booking_id (bookings db))
                                 (bookings_seq db))
                     fid name n
                     (real_column (PrimFloat.mul (Flights.price f) (float_of_int n)))
                     today])
               (flights_seq db)
               (next_rowid (map Bookings.booking_id (bookings db)) (bookings_seq db))
               (next_rowid (map Bookings.booking_id (bookings db)) (bookings_seq db)))
  \/ (exists s fid, call_apply db c = update_seats s fid db)
  \/ (exists b bk,
        select_booking b (bookings db) = Some bk
        /\ call_apply db c
           = delete_booking b
               (add_seats (Bookings.num_seats bk) (Bookings.flight_id bk) db)).
Proof.
  destruct c as [dep dest day time price seats | op]; unfold call_apply.
  - destruct (add_flight db dep dest day time price seats) as [db' ok] eqn:H.
    apply add_flight_inv in H. cbn [fst].
    destruct H as [[_ [-> _]] | [[_ [-> _]] | [_ [_ [_ ->]]]]];
      [left; reflexivity | left; reflexivity|].
    right; left. do 6 eexists. reflexivity.
  - destruct (apply_cases db op)
      as [H | [[today0 [fid [name [n [f [_ [Hf [_ H]]]]]]]]
             | [[today0 [fid [name [n [f [_ [_ [_ H]]]]]]]]
               | [b [bk [_ [Hbk H]]]]]]].
    + left. exact H.
    + right; right; left. exists today0, fid, name, n, f. split; assumption.
    + right; right; right; left. eexists. eexists. exact H.
    + right; right; right; right. exists b, bk. split; assumption.
Qed.

Lemma booking_ids_step db c :
  Forall (fun x => Bookings.booking_id x <= bookings_seq db) (bookings db) ->
  Forall (fun x => Bookings.booking_id x <= bookings_seq (call_apply db c))
         (bookings (call_apply db c))
  /\ bookings_seq db <= bookings_seq (call_apply db c)
  /\ forall x, In x (bookings (call_apply db c)) ->
               In x (bookings db) \/ bookings_seq db < Bookings.booking_id x.
Proof.
  intros Hb.
  destruct (call_apply_cases db c)
    as [-> | [[dep [dest [day [time [price [seats ->]]]]]]
           | [[today0 [fid [name [n [f [Hf ->]]]]]]
             | [[s0 [fid0 ->]] | [b [bk [Hbk ->]]]]]]].
  - split; [exact Hb|]. split; [lia | tauto].
  - cbn [bookings bookings_seq]. split; [exact Hb|]. split; [lia | tauto].
  - cbn [bookings bookings_seq].
    set (id := next_rowid (map Bookings.booking_id (bookings db)) (bookings_seq db)).
    assert (Hid : bookings_seq db < id) by (unfold id, next_rowid; lia).
    split; [|split; [lia|]].
    + apply Forall_app. split.
      * eapply Forall_impl; [|exact Hb]. cbn. intros x Hx. lia.
      * constructor; [cbn; lia | constructor].
    + intros x Hin. apply in_app_or in Hin. destruct Hin as [Hin | [<- | []]];
        [left; exact Hin | right; exact Hid].
  - cbn [update_seats bookings bookings_seq]. split; [exact Hb|]. split; [lia | tauto].
  - cbn [delete_booking add_seats bookings bookings_seq].
    split; [|split; [lia|]].
    + rewrite Forall_forall in *. intros x Hin. apply filter_In in Hin.
      apply Hb. tauto.
    + intros x Hin. apply filter_In in Hin. tauto.
Qed.

Lemma booking_ids_run cs : forall db,
  Forall (fun x => Bookings.booking_id x <= bookings_seq db) (bookings db) ->
  forall x, In x (bookings (calls_run cs db)) ->
            In x (bookings db) \/ bookings_seq db < Bookings.booking_id x.
Proof.
  induction cs as [|c cs IH]; intros db Hb x Hin; [left; exact Hin|].
  destruct (booking_ids_step db c Hb) as [Hb' [Hle Hnew]].
  destruct (IH (call_apply db c) Hb' x Hin) as [Hx | Hx].
  - exact (Hnew x Hx).
  - right. lia.
Qed.

(** X8. Booking ids are never used again.  In a store whose booking ids are
    at most the sqlite_sequence counter (as in every store the program
    builds), once [cancel_booking] has removed an id, no sequence of
    [add_flight], [book_flight] and [cancel_booking] calls brings a booking
    with that id back. *)
Theorem booking_id_never_reused db booking_id db' msg cs :
  Forall (fun x => Bookings.booking_id x <= bookings_seq db) (bookings db) ->
  cancel_booking db booking_id = (db', Return (true, msg)) ->
  select_booking booking_id (bookings (calls_run cs db')) = None.
Proof.
  intros Hb H. apply cancel_booking_success in H. destruct H as [bk [Hbk [-> _]]].
  set (db' := delete_booking booking_id
                (add_seats (Bookings.num_seats bk) (Bookings.flight_id bk) db)).
  assert (Hb' : Forall (fun x => Bookings.booking_id x <= bookings_seq db')
                       (bookings db')).
  { unfold db'. cbn [delete_booking add_seats bookings bookings_seq].
    rewrite Forall_forall in *. intros x Hin. apply filter_In in Hin.
    apply Hb. tauto. }
  assert (Hle : booking_id <= bookings_seq db').
  { unfold select_booking in Hbk. apply find_some in Hbk.
    destruct Hbk as [Hin Hid]. apply Z.eqb_eq in Hid. rewrite <- Hid.
    rewrite Forall_forall in Hb. exact (Hb bk Hin). }
  apply select_booking_none_iff. rewrite in_map_iff. intros [x [Hx Hin]].
  destruct (booking_ids_run cs db' Hb' x Hin) as [Hold | Hnew]; [|lia].
  pose proof (select_booking_deleted booking_id
                (add_seats (Bookings.num_seats bk) (Bookings.flight_id bk) db)) as Hgone.
  apply select_booking_none_iff in Hgone. apply Hgone.
  apply in_map_iff. exists x. split; [exact Hx | exact Hold].
Qed.

Lemma booking_id_never_reused_witness :
  select_booking 1
    (bookings (calls_run [BookOrCancel (Book today 1 "B. Kim" 3);
                          AddFlight "Rome" "Oslo" "2025-08-01" "09:00" 300%float 60;
                          BookOrCancel (Book today 6 "C. Roy" 1)]
                         (fst (cancel_booking booked_db 1))))
  = None.
Proof.
  apply (booking_id_never_reused booked_db 1 (fst (cancel_booking booked_db 1))
           "Booking cancelled successfully!"%string).
  - repeat constructor. cbn. lia.
  - reflexivity.
Defined.

Example booking_ids_run_example :
  map Bookings.booking_id
      (bookings (calls_run [BookOrCancel (Book today 1 "B. Kim" 3);
                            BookOrCancel (Book today 2 "C. Roy" 1)]
                           (fst (cancel_booking booked_db 1))))
  = [2; 3].
Proof. vm_compute. reflexivity. Qed.

Lemma flight_stays db c k :
  select_flight k (flights db) <> None ->
  select_flight k (flights (call_apply db c)) <> None.
Proof.
  intros Hk.
  destruct (call_apply_cases db c)
    as [-> | [[dep [dest [day [time [price [seats ->]]]]]]
           | [[today0 [fid [name [n [f [Hf ->]]]]]]
             | [[s0 [fid0 ->]] | [b [bk [Hbk ->]]]]]]].
  - exact Hk.
  - cbn [flights]. rewrite select_flight_app.
    destruct (select_flight k (flights db)); [discriminate | contradiction].
  - cbn [flights]. rewrite select_flight_update_seats.
    destruct (select_flight k (flights db)); [discriminate | contradiction].
  - rewrite select_flight_update_seats.
    destruct (select_flight k (flights db)); [discriminate | contradiction].
  - cbn [delete_booking flights]. rewrite select_flight_add_seats.
    destruct (select_flight k (flights db)); [discriminate | contradiction].
Qed.

Lemma references_step db c :
  (forall x, In x (bookings db) ->
             select_flight (Bookings.flight_id x) (flights db) <> None) ->
  forall x, In x (bookings (call_apply db c)) ->
            select_flight (Bookings.flight_id x) (flights (call_apply db c)) <> None.
Proof.
  intros Href x Hin.
  assert (Hold : In x (bookings db) ->
                 select_flight (Bookings.flight_id x) (flights (call_apply db c))
                 <> None).
  { intros Hx. apply flight_stays. exact (Href x Hx). }
  destruct (call_apply_cases db c)
    as [E | [[dep [dest [day [time [price [seats E]]]]]]
           | [[today0 [fid [name [n [f [Hf E]]]]]]
             | [[s0 [fid0 E]] | [b [bk [Hbk E]]]]]]].
  - apply Hold. rewrite E in Hin. exact Hin.
  - apply Hold. rewrite E in Hin. exact Hin.
  - pose proof Hin as Hin'. rewrite E in Hin'. cbn [bookings] in Hin'.
    apply in_app_or in Hin'. destruct Hin' as [Hx | [<- | []]]; [exact (Hold Hx)|].
    cbn [Bookings.flight_id]. apply flight_stays. rewrite Hf. discriminate.
  - apply Hold. rewrite E in Hin. exact Hin.
  - apply Hold. rewrite E in Hin. cbn [delete_booking add_seats bookings] in Hin.
    apply filter_In in Hin. tauto.
Qed.

(** X9. No call orphans a booking.  If every booking refers to a flight that
    is in the store, so it is after any sequence of [add_flight],
    [book_flight] and [cancel_booking] calls with any arguments, and
    [get_booking] finds every booking that is stored. *)
Theorem bookings_keep_their_flights cs : forall db,
  (forall x, In x (bookings db) ->
             select_flight (Bookings.flight_id x) (flights db) <> None) ->
  forall x, In x (bookings (calls_run cs db)) ->
    select_flight (Bookings.flight_id x) (flights (calls_run cs db)) <> None
    /\ get_booking (calls_run cs db) (Bookings.booking_id x) <> None.
Proof.
  induction cs as [|c cs IH]; intros db Href x Hin.
  - cbn in *. split; [exact (Href x Hin)|].
    destruct (select_booking (Bookings.booking_id x) (bookings db)) as [bk|] eqn:Hbk.
    + pose proof Hbk as Hbk'. unfold select_booking in Hbk'.
      apply find_some in Hbk'. destruct Hbk' as [Hbkin _].
      pose proof (Href bk Hbkin) as Hf.
      destruct (select_flight (Bookings.flight_id bk) (flights db)) as [f|] eqn:Hfl;
        [|contradiction].
      rewrite (get_booking_joined db _ bk f Hbk Hfl). discriminate.
    + exfalso. apply select_booking_none_iff in Hbk. apply Hbk.
      apply in_map. exact Hin.
  - exact (IH (call_apply db c) (references_step db c Href) x Hin).
Qed.

Lemma bookings_keep_their_flights_witness :
  Forall (fun x =>
            select_flight (Bookings.flight_id x)
              (flights (calls_run [BookOrCancel (Book today 2 "B. Kim" 3);
                                   BookOrCancel (Cancel 1)] booked_db)) <> None
            /\ get_booking (calls_run [BookOrCancel (Book today 2 "B. Kim" 3);
                                       BookOrCancel (Cancel 1)] booked_db)
                           (Bookings.booking_id x) <> None)
         (bookings (calls_run [BookOrCancel (Book today 2 "B. Kim" 3);
                               BookOrCancel (Cancel 1)] booked_db)).
Proof.
  apply Forall_forall.
  apply (bookings_keep_their_flights
           [BookOrCancel (Book today 2 "B. Kim" 3); BookOrCancel (Cancel 1)]
           booked_db).
  intros x Hin. vm_compute in Hin. destruct Hin as [<- | []].
  vm_compute. discriminate.
Defined.

Lemma flight_ids_map (g : Flights.row -> Flights.row) fs :
  (forall f, Flights.flight_id (g f) = Flights.flight_id f) ->
  map Flights.flight_id (map g fs) = map Flights.flight_id fs.
Proof. intros Hg. rewrite map_map. apply map_ext. exact Hg. Qed.

Lemma route_columns_map (g : Flights.row -> Flights.row) fs :
  (forall f, route_columns (g f) = route_columns f) ->
  map route_columns (map g fs) = map route_columns fs.
Proof. intros Hg. rewrite map_map. apply map_ext. exact Hg. Qed.

Lemma catalogue_seats_map (g : Flights.row -> Flights.row) db db' :
  (forall f, route_columns (g f) = route_columns f) ->
  (forall f, Flights.flight_id (g f) = Flights.flight_id f) ->
  flights db' = map g (flights db) ->
  flights_seq db' = flights_seq db ->
  map route_columns (flights db') = (map route_columns (flights db) ++ [])%list
  /\ flights_seq db <= flights_seq db'
  /\ exists new_ids,
       map Flights.flight_id (flights db')
       = (map Flights.flight_id (flights db) ++ new_ids)%list
       /\ Forall (fun i => flights_seq db < i) new_ids.
Proof.
  intros Hr Hi Hf Hs. rewrite Hf, Hs, app_nil_r, (route_columns_map g _ Hr).
  split; [reflexivity|]. split; [lia|]. exists [].
  rewrite app_nil_r, (flight_ids_map g _ Hi). split; [reflexivity | constructor].
Qed.

Lemma catalogue_step db c :
  map route_columns (flights (call_apply db c))
  = (map route_columns (flights db) ++ accepted_flight c)%list
  /\ flights_seq db <= flights_seq (call_apply db c)
  /\ exists new_ids,
       map Flights.flight_id (flights (call_apply db c))
       = (map Flights.flight_id (flights db) ++ new_ids)%list
       /\ Forall (fun i => flights_seq db < i) new_ids.
Proof.
  destruct c as [dep dest day time price seats | op].
  - unfold call_apply, add_flight, insert_flight, accepted_flight.
    destruct (int64 seats); cbn [negb andb];
      [destruct (PrimFloat.is_nan price); cbn [negb]|];
      cbn [fst flights flights_seq].
    + apply (catalogue_seats_map (fun f => f)); reflexivity || apply map_id
        || (symmetry; apply map_id).
    + rewrite !map_app. cbn [map route_columns Flights.departure
        Flights.destination Flights.flight_date Flights.flight_time
        Flights.price Flights.flight_id].
      split; [reflexivity|]. split; [unfold next_rowid; lia|].
      eexists. split; [reflexivity|].
      constructor; [unfold next_rowid; lia | constructor].
    + apply (catalogue_seats_map (fun f => f)); reflexivity || apply map_id
        || (symmetry; apply map_id).
  - cbn [call_apply accepted_flight].
    destruct (apply_cases db op)
      as [-> | [[today0 [fid [name [n [f [_ [_ [_ ->]]]]]]]]
             | [[today0 [fid [name [n [f [_ [_ [_ ->]]]]]]]]
               | [b [bk [_ [_ ->]]]]]]].
    + apply (catalogue_seats_map (fun f => f)); reflexivity || apply map_id
        || (symmetry; apply map_id).
    + eapply catalogue_seats_map; [| |cbn [flights update_seats]; reflexivity
                                   |reflexivity];
        intros g; cbn beta; destruct (Flights.flight_id g =? fid); reflexivity.
    + eapply catalogue_seats_map; [| |cbn [flights update_seats]; reflexivity
                                   |reflexivity];
        intros g; cbn beta; destruct (Flights.flight_id g =? fid); reflexivity.
    + eapply catalogue_seats_map;
        [| |cbn [flights delete_booking add_seats]; reflexivity|reflexivity];
        intros g; cbn beta;
        destruct (Flights.flight_id g =? Bookings.flight_id bk); reflexivity.
Qed.

(** X10. Flights are never deleted, reordered or edited, and the flights
    added are those asked for.  After any sequence of [add_flight],
    [book_flight] and [cancel_booking] calls the flights table, read without
    ids and seats, is the table before followed, in the order of the calls,
    by the values of every [add_flight] call whose seats fit 64 bits and
    whose price is not NaN (the price as the REAL column gives it back); the
    ids are the ids before followed by ids above the sqlite_sequence
    counter. *)
Theorem flights_catalogue_stable cs : forall db,
  map route_columns (flights (calls_run cs db))
  = (map route_columns (flights db) ++ accepted_flights cs)%list
  /\ exists new_ids,
       map Flights.flight_id (flights (calls_run cs db))
       = (map Flights.flight_id (flights db) ++ new_ids)%list
       /\ Forall (fun i => flights_seq db < i) new_ids.
Proof.
  induction cs as [|c cs IH]; intros db.
  - cbn [calls_run fold_left accepted_flights flat_map]. rewrite app_nil_r.
    split; [reflexivity|]. exists []. rewrite app_nil_r.
    split; [reflexivity | constructor].
  - destruct (catalogue_step db c) as [Hr [Hseq [ids1 [Hids1 Hnew1]]]].
    destruct (IH (call_apply db c)) as [Hr2 [ids2 [Hids2 Hnew2]]].
    change (calls_run (c :: cs) db) with (calls_run cs (call_apply db c)).
    split.
    + rewrite Hr2, Hr. cbn [accepted_flights flat_map]. symmetry. apply app_assoc.
    + exists (ids1 ++ ids2)%list. split.
      * rewrite Hids2, Hids1. symmetry. apply app_assoc.
      * apply Forall_app. split; [exact Hnew1|].
        eapply Forall_impl; [|exact Hnew2]. cbn beta. intros i Hi. lia.
Qed.

Example flights_catalogue_run :
  map static_columns
      (flights (calls_run [BookOrCancel (Book today 1 "A. Lee" 2);
                           AddFlight "Rome" "Oslo" "2025-08-01" "09:00" 300%float 60;
                           AddFlight "Rome" "Bern" "2025-08-02" "10:00" nan 60;
                           AddFlight "Rome" "Kyiv" "2025-08-03" "11:00" 100%float
                                     (2 ^ 63);
                           BookOrCancel (Cancel 1);
                           AddFlight "Rome" "Riga" "2025-08-04" "12:00" (-0)%float 5]
                          seed_db))
  = (map static_columns (flights seed_db)
     ++ [(6, "Rome", "Oslo", "2025-08-01", "09:00", 300%float);
         (7, "Rome", "Riga", "2025-08-04", "12:00", 0%float)]%string)%list
  /\ accepted_flights
       [BookOrCancel (Book today 1 "A. Lee" 2);
        AddFlight "Rome" "Oslo" "2025-08-01" "09:00" 300%float 60;
        AddFlight "Rome" "Bern" "2025-08-02" "10:00" nan 60;
        AddFlight "Rome" "Kyiv" "2025-08-03" "11:00" 100%float (2 ^ 63);
        BookOrCancel (Cancel 1);
        AddFlight "Rome" "Riga" "2025-08-04" "12:00" (-0)%float 5]
     = [("Rome", "Oslo", "2025-08-01", "09:00", 300%float);
        ("Rome", "Riga", "2025-08-04", "12:00", 0%float)]%string.
Proof. vm_compute. split; reflexivity. Qed.

Lemma keys_step db c :
  NoDup (map Flights.flight_id (flights db)) ->
  NoDup (map Bookings.booking_id (bookings db)) ->
  NoDup (map Flights.flight_id (flights (call_apply db c)))
  /\ NoDup (map Bookings.booking_id (bookings (call_apply db c))).
Proof.
  intros Hf Hb.
  destruct (call_apply_cases db c)
    as [-> | [[dep [dest [day [time [price [seats ->]]]]]]
           | [[today0 [fid [name [n [f [Hsel ->]]]]]]
             | [[s0 [fid0 ->]] | [b [bk [Hbk ->]]]]]]].
  - split; assumption.
  - cbn [flights bookings]. split; [|exact Hb].
    rewrite map_app. cbn [map Flights.flight_id]. apply NoDup_snoc_fresh. exact Hf.
  - cbn [flights bookings update_seats]. split.
    + rewrite flight_ids_map; [exact Hf|].
      intros g. destruct (Flights.flight_id g =? fid); reflexivity.
    + rewrite map_app. cbn [map Bookings.booking_id].
      apply NoDup_snoc_fresh. exact Hb.
  - cbn [flights bookings update_seats]. split; [|exact Hb].
    rewrite flight_ids_map; [exact Hf|].
    intros g. destruct (Flights.flight_id g =? fid0); reflexivity.
  - cbn [delete_booking add_seats flights bookings]. split.
    + rewrite flight_ids_map; [exact Hf|].
      intros g. destruct (Flights.flight_id g =? Bookings.flight_id bk); reflexivity.
    + apply NoDup_filter_ids. exact Hb.
Qed.

(** X11. The ids stay keys.  When the flight ids are distinct and the
    booking ids are distinct, they still are after any sequence of
    [add_flight], [book_flight] and [cancel_booking] calls: AUTOINCREMENT
    never hands out an id that is in the table. *)
Theorem ids_stay_distinct cs : forall db,
  NoDup (map Flights.flight_id (flights db)) ->
  NoDup (map Bookings.booking_id (bookings db)) ->
  NoDup (map Flights.flight_id (flights (calls_run cs db)))
  /\ NoDup (map Bookings.booking_id (bookings (calls_run cs db))).
Proof.
  induction cs as [|c cs IH]; intros db Hf Hb; [split; assumption|].
  destruct (keys_step db c Hf Hb) as [Hf' Hb'].
  exact (IH (call_apply db c) Hf' Hb').
Qed.

Lemma ids_stay_distinct_witness :
  NoDup (map Flights.flight_id
           (flights (calls_run
                       [AddFlight "Rome" "Oslo" "2025-08-01" "09:00" 300%float 60;
                        BookOrCancel (Book today 6 "B. Kim" 3);
                        BookOrCancel (Cancel 1);
                        BookOrCancel (Book today 1 "C. Roy" 1)] booked_db)))
  /\ NoDup (map Bookings.booking_id
              (bookings (calls_run
                          [AddFlight "Rome" "Oslo" "2025-08-01" "09:00" 300%float 60;
                           BookOrCancel (Book today 6 "B. Kim" 3);
                           BookOrCancel (Cancel 1);
                           BookOrCancel (Book today 1 "C. Roy" 1)] booked_db))).
Proof.
  apply (ids_stay_distinct
           [AddFlight "Rome" "Oslo" "2025-08-01" "09:00" 300%float 60;
            BookOrCancel (Book today 6 "B. Kim" 3);
            BookOrCancel (Cancel 1);
            BookOrCancel (Book today 1 "C. Roy" 1)] booked_db).
  - change (NoDup [1; 2; 3; 4; 5]).
    repeat (constructor; [cbn; lia|]). constructor.
  - change (NoDup [1]). repeat constructor. cbn. tauto.
Defined.

(** ** More on [search_flights] *)

Lemma like_percent_weaken p s :
  like p s = true -> like (String "%" p) s = true.
Proof.
  intros H. destruct s as [|c s].
  - rewrite like_percent_nil. exact H.
  - rewrite like_percent_cons, H. reflexivity.
Qed.

Lemma like_percent_skip p c s :
  like (String "%" p) s = true -> like (String "%" p) (String c s) = true.
Proof. intros H. rewrite like_percent_cons, H. apply orb_true_r. Qed.

Lemma like_any_prefix x : forall s,
  ci_prefix x s = true -> like (x ++ "%") s = true.
Proof.
  induction x as [|a x IH]; intros s H.
  - apply like_percent_all.
  - destruct s as [|b s]; [discriminate|].
    cbn [ci_prefix] in H. apply andb_prop in H. destruct H as [Hab Hx].
    specialize (IH s Hx). cbn [append].
    destruct (Ascii.eqb_spec a "%") as [->|Hp].
    + apply like_percent_skip. apply like_percent_weaken. exact IH.
    + cbn [like]. rewrite (proj2 (Ascii.eqb_neq a "%") Hp).
      rewrite Hab, IH, orb_true_r. reflexivity.
Qed.

Lemma like_any_contains x : forall s,
  ci_contains x s = true -> like ("%" ++ x ++ "%") s = true.
Proof.
  intros s. change ("%" ++ x ++ "%")%string with (String "%" (x ++ "%")).
  induction s as [|c s IH]; cbn [ci_contains]; intros H.
  - rewrite orb_false_r in H. apply like_percent_weaken.
    apply like_any_prefix. exact H.
  - apply orb_prop in H. destruct H as [H|H].
    + apply like_percent_weaken. apply like_any_prefix. exact H.
    + apply like_percent_skip. exact (IH H).
Qed.



Lemma lower_idempotent c : lower (lower c) = lower c.
Proof.
  destruct c as [[|] [|] [|] [|] [|] [|] [|] [|]]; reflexivity.
Qed.

Lemma lower_percent c : (lower c =? "%")%char = (c =? "%")%char.
Proof.
  destruct c as [[|] [|] [|] [|] [|] [|] [|] [|]]; reflexivity.
Qed.

Lemma lower_underscore c : (lower c =? "_")%char = (c =? "_")%char.
Proof.
  destruct c as [[|] [|] [|] [|] [|] [|] [|] [|]]; reflexivity.
Qed.

Lemma like_lower_pattern p : forall s, like (lower_string p) s = like p s.
Proof.
  induction p as [|c p IH]; intros s; [reflexivity|].
  cbn [lower_string like]. rewrite lower_percent, lower_underscore, lower_idempotent.
  destruct (c =? "%")%char.
  - induction s as [|d s IHs]; rewrite IH; [reflexivity|].
    f_equal. exact IHs.
  - destruct s as [|d s]; [reflexivity|]. rewrite IH. reflexivity.
Qed.

Lemma like_lower_text p : forall s, like p (lower_string s) = like p s.
Proof.
  induction p as [|c p IH]; intros s.
  - destruct s; reflexivity.
  - cbn [like]. destruct (c =? "%")%char.
    + induction s as [|d s IHs]; cbn [lower_string].
      * reflexivity.
      * rewrite <- (IH (String d s)). cbn [lower_string]. f_equal. exact IHs.
    + destruct s as [|d s]; [reflexivity|]. cbn [lower_string].
      rewrite lower_idempotent, IH. reflexivity.
Qed.

Lemma lower_string_app x y :
  lower_string (x ++ y) = (lower_string x ++ lower_string y)%string.
Proof.
  induction x as [|c x IH]; [reflexivity|]. cbn. rewrite IH. reflexivity.
Qed.

Lemma truthy_lower x : truthy (lower_string x) = truthy x.
Proof. destruct x; reflexivity. Qed.

Lemma like_filter_case x y s :
  lower_string x = lower_string y ->
  like ("%" ++ x ++ "%") s = like ("%" ++ y ++ "%") s.
Proof.
  intros H. rewrite <- (like_lower_pattern ("%" ++ x ++ "%")).
  rewrite <- (like_lower_pattern ("%" ++ y ++ "%")).
  rewrite !lower_string_app, H. reflexivity.
Qed.

(** X13. The search does not see the case of ASCII letters, neither in the
    filters nor in the table: two departure filters, and two destination
    filters, that are equal once lower-cased give the same result, and so do
    two tables whose rows differ only in the case of departure and
    destination.  The date is compared as it is. *)
Theorem search_ignores_case db departure departure' destination destination' date :
  lower_string departure = lower_string departure' ->
  lower_string destination = lower_string destination' ->
  search_flights db departure destination date
  = search_flights db departure' destination' date
  /\ forall f,
       search_where departure destination date f
       = search_where departure destination date
           (Flights.mk (Flights.flight_id f) (lower_string (Flights.departure f))
              (lower_string (Flights.destination f)) (Flights.flight_date f)
              (Flights.flight_time f) (Flights.price f) (Flights.seats_available f)).
Proof.
  intros Hdep Hdest. split.
  - unfold search_flights. apply filter_ext. intros f. unfold search_where.
    rewrite (like_filter_case departure departure' _ Hdep).
    rewrite (like_filter_case destination destination' _ Hdest).
    rewrite <- (truthy_lower departure), <- (truthy_lower destination).
    rewrite Hdep, Hdest, !truthy_lower. reflexivity.
  - intros f. unfold search_where.
    cbn [Flights.departure Flights.destination Flights.flight_date].
    rewrite !like_lower_text. reflexivity.
Qed.

Lemma search_ignores_case_witness :
  search_flights seed_db "NEW york" "LONdon" "2025-07-01"
  = search_flights seed_db "new York" "lOndoN" "2025-07-01"
  /\ forall f,
       search_where "NEW york" "LONdon" "2025-07-01" f
       = search_where "NEW york" "LONdon" "2025-07-01"
           (Flights.mk (Flights.flight_id f) (lower_string (Flights.departure f))
              (lower_string (Flights.destination f)) (Flights.flight_date f)
              (Flights.flight_time f) (Flights.price f) (Flights.seats_available f)).
Proof.
  exact (search_ignores_case seed_db "NEW york" "new York" "LONdon" "lOndoN"
           "2025-07-01" eq_refl eq_refl).
Defined.

Lemma search_where_split departure destination date f :
  search_where departure destination date f
  = search_where departure "" "" f && search_where "" destination "" f
    && search_where "" "" date f.
Proof.
  unfold search_where. cbn [truthy]. rewrite !andb_true_r, !andb_true_l.
  reflexivity.
Qed.

(** X14. The three filters work independently: the flights a search returns
    are those that each of the three single-filter searches returns, and they
    are always rows of the flights table. *)
Theorem search_filters_intersect db departure destination date f :
  (In f (search_flights db departure destination date)
   <-> In f (search_flights db departure "" "")
       /\ In f (search_flights db "" destination "")
       /\ In f (search_flights db "" "" date))
  /\ (In f (search_flights db departure destination date) -> In f (flights db)).
Proof.
  unfold search_flights. rewrite !filter_In.
  rewrite (search_where_split departure destination date f), !andb_true_iff.
  tauto.
Qed.

Lemma search_filters_intersect_witness :
  (In (Flights.mk 4 "New York" "Tokyo" "2025-07-10" "18:00" 1200%float 200)
      (search_flights seed_db "york" "tok" "2025-07-10")
   <-> In (Flights.mk 4 "New York" "Tokyo" "2025-07-10" "18:00" 1200%float 200)
          (search_flights seed_db "york" "" "")
       /\ In (Flights.mk 4 "New York" "Tokyo" "2025-07-10" "18:00" 1200%float 200)
             (search_flights seed_db "" "tok" "")
       /\ In (Flights.mk 4 "New York" "Tokyo" "2025-07-10" "18:00" 1200%float 200)
             (search_flights seed_db "" "" "2025-07-10"))
  /\ (In (Flights.mk 4 "New York" "Tokyo" "2025-07-10" "18:00" 1200%float 200)
         (search_flights seed_db "york" "tok" "2025-07-10")
      -> In (Flights.mk 4 "New York" "Tokyo" "2025-07-10" "18:00" 1200%float 200)
            (flights seed_db)).
Proof.
  exact (search_filters_intersect seed_db "york" "tok" "2025-07-10"
           (Flights.mk 4 "New York" "Tokyo" "2025-07-10" "18:00" 1200%float 200)).
Defined.

(** * Properties of the handlers *)

Lemma next_rowid_positive ids seq : 0 < next_rowid ids seq.
Proof.
  unfold next_rowid.
  assert (0 <= fold_right Z.max 0 ids)
    by (induction ids as [|i ids IH]; cbn [fold_right]; lia).
  lia.
Qed.

Section HandlerProperties.
Variable strip : string -> string.
Variable int : string -> option Z.
Variable parse_float : string -> option float.
Variable strptime : string -> string -> bool.
Variable format_2f : float -> string.

Lemma truthy_iff s : truthy s = true <-> s <> EmptyString.
Proof. destruct s; simpl; split; congruence. Qed.

(** X15. [_add_flight_gui] adds a flight only from six non-empty fields with
    a date and a time [strptime] accepts, a price that reads as a float, is
    not NaN and is not [<= 0], and seats that read as a positive int; the row
    added holds the stripped fields and these two numbers.  In every other
    case the store is the one before and no "Flight Added" is shown. *)
Theorem add_flight_gui_validates db e_departure e_destination e_date e_time
    e_price e_seats db' dialog :
  _add_flight_gui strip int parse_float strptime db
    e_departure e_destination e_date e_time e_price e_seats = (db', dialog) ->
  (db' = db
   /\ dialog <> Return (Some (showinfo "Flight Added"
                                       "New flight added successfully!")))
  \/ (exists price seats,
        Forall (fun e => strip e <> EmptyString)
               [e_departure; e_destination; e_date; e_time; e_price; e_seats]
        /\ _is_valid_date strptime (strip e_date) = true
        /\ _is_valid_time strptime (strip e_time) = true
        /\ parse_float (strip e_price) = Some price
        /\ PrimFloat.leb price 0 = false
        /\ PrimFloat.is_nan price = false
        /\ int (strip e_seats) = Some seats
        /\ 0 < seats
        /\ add_flight db (strip e_departure) (strip e_destination) (strip e_date)
             (strip e_time) price seats = (db', Return true)
        /\ dialog = Return (Some (showinfo "Flight Added"
                                           "New flight added successfully!"))).
Proof.
  unfold _add_flight_gui.
  destruct (forallb truthy
              [strip e_departure; strip e_destination; strip e_date; strip e_time;
               strip e_price; strip e_seats]) eqn:Hall; cbn [negb];
    [|intros [= <- <-]; left; split; [reflexivity | discriminate]].
  destruct (_is_valid_date strptime (strip e_date)) eqn:Hdate; cbn [negb];
    [|intros [= <- <-]; left; split; [reflexivity | discriminate]].
  destruct (_is_valid_time strptime (strip e_time)) eqn:Htime; cbn [negb];
    [|intros [= <- <-]; left; split; [reflexivity | discriminate]].
  destruct (parse_float (strip e_price)) as [price|] eqn:Hprice;
    [|intros [= <- <-]; left; split; [reflexivity | discriminate]].
  destruct (int (strip e_seats)) as [seats|] eqn:Hseats;
    [|intros [= <- <-]; left; split; [reflexivity | discriminate]].
  destruct (PrimFloat.leb price 0 || (seats <=? 0)) eqn:Hpos;
    [intros [= <- <-]; left; split; [reflexivity | discriminate]|].
  apply orb_false_elim in Hpos. destruct Hpos as [Hle Hs].
  apply Z.leb_gt in Hs.
  destruct (add_flight db (strip e_departure) (strip e_destination) (strip e_date)
              (strip e_time) price seats) as [d ok] eqn:Hadd.
  pose proof (add_flight_inv _ _ _ _ _ _ _ _ _ Hadd) as Hinv.
  destruct Hinv as [[-> [-> _]] | [[-> [-> _]] | [-> [_ [Hnan _]]]]];
    intros [= <- <-].
  - left. split; [reflexivity | discriminate].
  - left. split; [reflexivity | discriminate].
  - right. exists price, seats.
    cbn [forallb] in Hall. rewrite !andb_true_iff in Hall.
    destruct Hall as [H1 [H2 [H3 [H4 [H5 [H6 _]]]]]].
    repeat split; try assumption; try reflexivity.
    repeat (constructor; [apply truthy_iff; assumption|]). constructor.
Qed.

Lemma get_booking_deleted b db : get_booking (delete_booking b db) b = None.
Proof.
  apply get_booking_no_flight. intros x Hin Hx. exfalso.
  cbn [delete_booking bookings] in Hin. apply filter_In in Hin.
  destruct Hin as [_ Hin]. rewrite Hx, Z.eqb_refl in Hin. discriminate.
Qed.

(** X16. After the "Cancellation Success" dialog the details label is reset
    and the booking id field is empty, so the View button, pressed next,
    asks for a booking id.  With the same id typed in again it shows "Booking
    not found" (the booking ids of the store fit 64 bits, as SQLite's
    do). *)
Theorem view_after_cancel_gui db label booking_id_entry db' label' entry' message :
  strip EmptyString = EmptyString ->
  Forall (fun x => int64 (Bookings.booking_id x) = true) (bookings db) ->
  _cancel_booking_gui strip int db label booking_id_entry true
  = (db', (label', entry'),
     Return (Some (showinfo "Cancellation Success" message))) ->
  label' = ("Booking Details:" ++ newline)%string
  /\ entry' = EmptyString
  /\ _view_booking_gui strip int format_2f db' label' entry'
     = (label', Return (Some (showerror "Input Error"
                                        "Please enter a Booking ID.")))
  /\ _view_booking_gui strip int format_2f db' label' booking_id_entry
     = (("Booking Details:" ++ newline ++ "Booking not found.")%string,
        Return (Some (showinfo "Booking Not Found"
                               "No booking found with that ID."))).
Proof.
  intros Hstrip Hids. unfold _cancel_booking_gui, _view_booking_gui.
  destruct (truthy (strip booking_id_entry)); cbn [negb]; [|discriminate].
  destruct (int (strip booking_id_entry)) as [b|]; [|discriminate].
  destruct (cancel_booking db b) as [d [[[|] msg]|e]] eqn:Hc;
    [|discriminate|discriminate].
  intros [= <- <- <- _]. apply cancel_booking_success in Hc.
  destruct Hc as [bk [Hbk [-> _]]].
  split; [reflexivity|]. split; [reflexivity|]. rewrite Hstrip. cbn [truthy negb].
  split; [reflexivity|]. rewrite get_booking_deleted.
  destruct (bindable b _) eqn:Hbind; [reflexivity|]. exfalso.
  assert (H64 : int64 b = true).
  { unfold select_booking in Hbk. apply find_some in Hbk.
    destruct Hbk as [Hin Hid]. apply Z.eqb_eq in Hid. rewrite <- Hid.
    rewrite Forall_forall in Hids. exact (Hids bk Hin). }
  rewrite (bindable_int64 _ _ H64) in Hbind. discriminate.
Qed.

Lemma book_flight_absent today db fid name n :
  select_flight fid (flights db) = None ->
  book_flight today db fid name n
  = (db, if int64 fid then Return (false, "Flight not found."%string)
         else Raise OverflowError).
Proof.
  intros Hf. unfold book_flight.
  rewrite (select_flight_absent_bindable _ _ Hf), Hf.
  destruct (int64 fid); reflexivity.
Qed.


Lemma valid_call_step db c :
  (forall f, In f (flights db) -> 0 <= Flights.seats_available f) ->
  (forall x, In x (bookings db) ->
             0 < Bookings.num_seats x /\ Bookings.passenger_name x <> EmptyString) ->
  match c with
  | AddFlight _ _ _ _ _ seats => 0 < seats
  | BookOrCancel (Book _ _ name n) => 0 < n /\ name <> EmptyString
  | BookOrCancel (Cancel _) => True
  end ->
  (forall f, In f (flights (call_apply db c)) -> 0 <= Flights.seats_available f)
  /\ (forall x, In x (bookings (call_apply db c)) ->
                0 < Bookings.num_seats x /\ Bookings.passenger_name x <> EmptyString).
Proof.
  intros Hf Hb Hc.
  destruct c as [dep dest day time price seats | op]; unfold call_apply.
  - destruct (add_flight db dep dest day time price seats) as [d ok] eqn:Hadd.
    apply add_flight_inv in Hadd. cbn [fst].
    destruct Hadd as [[_ [-> _]] | [[_ [-> _]] | [_ [_ [_ ->]]]]];
      [split; assumption | split; assumption|].
    cbn [flights bookings]. split; [|exact Hb].
    intros f Hin. apply in_app_or in Hin. destruct Hin as [Hin | [<- | []]];
      [exact (Hf f Hin) | cbn; lia].
  - destruct (apply_cases db op)
      as [-> | [[today0 [fid [name [n [f0 [-> [Hf0 [Hle ->]]]]]]]]
             | [[today0 [fid [name [n [f0 [-> [Hf0 [Hn _]]]]]]]]
               | [b [bk [-> [Hbk ->]]]]]]].
    + split; assumption.
    + destruct Hc as [Hn Hname]. cbn [flights bookings update_seats]. split.
      * intros f Hin. apply in_map_iff in Hin. destruct Hin as [g [<- Hg]].
        destruct (Flights.flight_id g =? fid); [cbn; lia | exact (Hf g Hg)].
      * intros x Hin. apply in_app_or in Hin. destruct Hin as [Hin | [<- | []]];
          [exact (Hb x Hin) | cbn; split; assumption].
    + destruct Hc as [Hpos _]. lia.
    + apply find_some in Hbk. destruct Hbk as [Hbk _].
      cbn [delete_booking add_seats flights bookings]. split.
      * intros f Hin. apply in_map_iff in Hin. destruct Hin as [g [<- Hg]].
        specialize (Hf g Hg). destruct (Hb bk Hbk) as [Hpos _].
        destruct (Flights.flight_id g =? Bookings.flight_id bk);
          [cbn; lia | exact Hf].
      * intros x Hin. apply filter_In in Hin. exact (Hb x (proj1 Hin)).
Qed.

Lemma on_click_call db c :
  on_click strip int parse_float strptime db c = db
  \/ exists c',
       match c' with
       | AddFlight _ _ _ _ _ seats => 0 < seats
       | BookOrCancel (Book _ _ name n) => 0 < n /\ name <> EmptyString
       | BookOrCancel (Cancel _) => True
       end
       /\ on_click strip int parse_float strptime db c = call_apply db c'.
Proof.
  destruct c as [today0 e1 e2 e3 | e askyesno | e1 e2 e3 e4 e5 e6]; unfold on_click.
  - unfold _book_flight_gui.
    destruct (negb (truthy (strip e1)) || negb (truthy (strip e2))
              || negb (truthy (strip e3))) eqn:Hempty; [left; reflexivity|].
    apply orb_false_elim in Hempty. destruct Hempty as [Hempty _].
    apply orb_false_elim in Hempty. destruct Hempty as [_ Hname].
    apply negb_false_iff in Hname. apply truthy_iff in Hname.
    destruct (int (strip e1)) as [fid|]; [|left; reflexivity].
    destruct (int (strip e3)) as [n|]; [|left; reflexivity].
    destruct (n <=? 0) eqn:Hpos; [left; reflexivity|]. apply Z.leb_gt in Hpos.
    right. exists (BookOrCancel (Book today0 fid (strip e2) n)).
    split; [split; assumption|]. unfold call_apply, apply.
    destruct (book_flight today0 db fid (strip e2) n) as [d [[[|] msg]|ex]];
      cbn [fst].
    + destruct (negb (last_insert_rowid d =? 0)); reflexivity.
    + reflexivity.
    + reflexivity.
  - unfold _cancel_booking_gui.
    destruct (negb (truthy (strip e))); [left; reflexivity|].
    destruct (int (strip e)) as [b|]; [|left; reflexivity].
    destruct askyesno; [|left; reflexivity].
    right. exists (BookOrCancel (Cancel b)). split; [exact I|].
    unfold call_apply, apply.
    destruct (cancel_booking db b) as [d [[[|] msg]|ex]]; reflexivity.
  - unfold _add_flight_gui.
    destruct (negb (forallb truthy
                [strip e1; strip e2; strip e3; strip e4; strip e5; strip e6]));
      [left; reflexivity|].
    destruct (negb (_is_valid_date strptime (strip e3))); [left; reflexivity|].
    destruct (negb (_is_valid_time strptime (strip e4))); [left; reflexivity|].
    destruct (parse_float (strip e5)) as [price|]; [|left; reflexivity].
    destruct (int (strip e6)) as [seats|]; [|left; reflexivity].
    destruct (PrimFloat.leb price 0 || (seats <=? 0)) eqn:Hpos; [left; reflexivity|].
    apply orb_false_elim in Hpos. destruct Hpos as [_ Hs]. apply Z.leb_gt in Hs.
    right. exists (AddFlight (strip e1) (strip e2) (strip e3) (strip e4) price seats).
    split; [exact Hs|]. unfold call_apply.
    destruct (add_flight db (strip e1) (strip e2) (strip e3) (strip e4) price seats)
      as [d [[|]|ex]]; reflexivity.
Qed.

(** X18. Through the GUI the seat counts stay sound.  From a store in which
    no flight has negative seats and every booking has a positive number of
    seats and a non-empty passenger name, any session of Book, Cancel and Add
    Flight clicks, with any field contents, leads to such a store. *)
Theorem gui_session_keeps_store_sound cs : forall db,
  (forall f, In f (flights db) -> 0 <= Flights.seats_available f) ->
  (forall x, In x (bookings db) ->
             0 < Bookings.num_seats x /\ Bookings.passenger_name x <> EmptyString) ->
  (forall f, In f (flights (session strip int parse_float strptime cs db)) ->
             0 <= Flights.seats_available f)
  /\ (forall x, In x (bookings (session strip int parse_float strptime cs db)) ->
                0 < Bookings.num_seats x
                /\ Bookings.passenger_name x <> EmptyString).
Proof.
  induction cs as [|c cs IH]; intros db Hf Hb; [split; assumption|].
  cbn [session fold_left].
  destruct (on_click_call db c) as [-> | [c' [Hc' ->]]].
  - exact (IH db Hf Hb).
  - destruct (valid_call_step db c' Hf Hb Hc') as [Hf' Hb'].
    exact (IH (call_apply db c') Hf' Hb').
Qed.

End HandlerProperties.

(** X19. [_search_flights_gui] refuses a date [strptime] rejects and leaves
    the result tree as it was.  Otherwise the tree shows the result of
    [search_flights] on the stripped fields: rows of the flights table, all
    with exactly the date asked for when one was given, and the "No flights
    found" dialog comes up exactly when there is none. *)
Theorem search_gui_shows_matches
    (strip : string -> string) (strptime : string -> string -> bool)
    db tree e_departure e_destination e_date tree' dialog :
  _search_flights_gui strip strptime db tree e_departure e_destination e_date
  = (tree', dialog) ->
  (tree' = tree
   /\ dialog = Some (showerror "Invalid Input"
                               "Please enter date in YYYY-MM-DD format.")
   /\ strip e_date <> EmptyString
   /\ _is_valid_date strptime (strip e_date) = false)
  \/ (tree' = search_flights db (strip e_departure) (strip e_destination)
                             (strip e_date)
      /\ (tree' = [] <->
          dialog = Some (showinfo "Search Results"
                                  "No flights found matching your criteria."))
      /\ (tree' <> [] <-> dialog = None)
      /\ forall f, In f tree' ->
           In f (flights db)
           /\ (strip e_date <> EmptyString ->
               Flights.flight_date f = strip e_date
               /\ _is_valid_date strptime (strip e_date) = true)).
Proof.
  unfold _search_flights_gui.
  destruct (truthy (strip e_date) && negb (_is_valid_date strptime (strip e_date)))
    eqn:Hdate.
  - intros [= <- <-]. left. apply andb_prop in Hdate. destruct Hdate as [Ht Hv].
    apply negb_true_iff in Hv. apply truthy_iff in Ht. repeat split; assumption.
  - intros H. right.
    assert (Hrows : forall f,
              In f (search_flights db (strip e_departure) (strip e_destination)
                                   (strip e_date)) ->
              In f (flights db)
              /\ (strip e_date <> EmptyString ->
                  Flights.flight_date f = strip e_date
                  /\ _is_valid_date strptime (strip e_date) = true)).
    { intros f Hin. unfold search_flights in Hin. apply filter_In in Hin.
      destruct Hin as [Hin Hw]. split; [exact Hin|]. intros Hd.
      apply truthy_iff in Hd. unfold search_where in Hw. rewrite Hd in *.
      apply andb_prop in Hw. destruct Hw as [_ Hw]. apply String.eqb_eq in Hw.
      split; [exact Hw|]. cbn [andb] in Hdate. apply negb_false_iff in Hdate.
      exact Hdate. }
    destruct (search_flights db (strip e_departure) (strip e_destination)
                             (strip e_date)) as [|f fs] eqn:Hs;
      injection H as <- <-.
    + split; [reflexivity|]. split; [tauto|].
      split; [split; [congruence | discriminate] | exact Hrows].
    + split; [reflexivity|]. split; [split; discriminate|].
      split; [split; [reflexivity | discriminate] | exact Hrows].
Qed.


(** ** The handlers on the seed data *)

Lemma add_flight_gui_validates_witness :
  let r := _add_flight_gui strip_blanks int_of_decimal float_of_digits strptime_shape
             seed_db " Rome" "Oslo " "2025-08-01" "09:00" "300" "60" in
  (fst r = seed_db
   /\ snd r <> Return (Some (showinfo "Flight Added"
                                      "New flight added successfully!")))
  \/ (exists price seats,
        Forall (fun e => strip_blanks e <> EmptyString)
               [" Rome"; "Oslo "; "2025-08-01"; "09:00"; "300"; "60"]%string
        /\ _is_valid_date strptime_shape (strip_blanks "2025-08-01") = true
        /\ _is_valid_time strptime_shape (strip_blanks "09:00") = true
        /\ float_of_digits (strip_blanks "300") = Some price
        /\ PrimFloat.leb price 0 = false
        /\ PrimFloat.is_nan price = false
        /\ int_of_decimal (strip_blanks "60") = Some seats
        /\ 0 < seats
        /\ add_flight seed_db (strip_blanks " Rome") (strip_blanks "Oslo ")
             (strip_blanks "2025-08-01") (strip_blanks "09:00") price seats
           = (fst r, Return true)
        /\ snd r = Return (Some (showinfo "Flight Added"
                                          "New flight added successfully!"))).
Proof.
  exact (add_flight_gui_validates strip_blanks int_of_decimal float_of_digits
           strptime_shape seed_db " Rome" "Oslo " "2025-08-01" "09:00" "300" "60"
           _ _ eq_refl).
Defined.

Example add_flight_gui_run :
  map static_columns
      (flights (fst (_add_flight_gui strip_blanks int_of_decimal float_of_digits
                       strptime_shape seed_db
                       " Rome" "Oslo " "2025-08-01" "09:00" "300" "60")))
  = (map static_columns (flights seed_db)
     ++ [(6, "Rome", "Oslo", "2025-08-01", "09:00", 300%float)]%string)%list
  /\ fst (_add_flight_gui strip_blanks int_of_decimal float_of_digits
            strptime_shape seed_db "Rome" "Oslo" "2025-08-01" "09:00" "300" "0")
     = seed_db
  /\ fst (_add_flight_gui strip_blanks int_of_decimal float_of_digits
            strptime_shape seed_db "Rome" "Oslo" "1 Aug" "09:00" "300" "60")
     = seed_db
  /\ _add_flight_gui strip_blanks int_of_decimal float_of_digits
       strptime_shape seed_db "Rome" "Oslo" "2025-08-01" "09:00" "300"
       "9223372036854775808"
     = (seed_db, Raise OverflowError).
Proof. vm_compute. repeat split; reflexivity. Qed.

Lemma view_after_cancel_gui_witness :
  ("Booking Details:" ++ newline)%string = ("Booking Details:" ++ newline)%string
  /\ EmptyString = EmptyString
  /\ _view_booking_gui strip_blanks int_of_decimal (fun _ => "0.00"%string)
       (fst (cancel_booking booked_db 1)) ("Booking Details:" ++ newline) ""
     = (("Booking Details:" ++ newline)%string,
        Return (Some (showerror "Input Error" "Please enter a Booking ID.")))
  /\ _view_booking_gui strip_blanks int_of_decimal (fun _ => "0.00"%string)
       (fst (cancel_booking booked_db 1)) ("Booking Details:" ++ newline) " 1 "
     = (("Booking Details:" ++ newline ++ "Booking not found.")%string,
        Return (Some (showinfo "Booking Not Found"
                               "No booking found with that ID."))).
Proof.
  apply (view_after_cancel_gui strip_blanks int_of_decimal (fun _ => "0.00"%string)
           booked_db "Booking ID: 1" " 1 " (fst (cancel_booking booked_db 1))
           ("Booking Details:" ++ newline) "" "Booking cancelled successfully!").
  - reflexivity.
  - repeat constructor.
  - reflexivity.
Defined.

Example cancel_booking_gui_run :
  _cancel_booking_gui strip_blanks int_of_decimal booked_db "Booking ID: 1" " 1 " true
  = (fst (cancel_booking booked_db 1),
     (("Booking Details:" ++ newline)%string, EmptyString),
     Return (Some (showinfo "Cancellation Success"
                            "Booking cancelled successfully!")))
  /\ _cancel_booking_gui strip_blanks int_of_decimal booked_db "Booking ID: 1" "2" true
     = (booked_db, ("Booking ID: 1"%string, "2"%string),
        Return (Some (showerror "Cancellation Failed" "Booking not found.")))
  /\ _cancel_booking_gui strip_blanks int_of_decimal booked_db "Booking ID: 1"
       "99999999999999999999" true
     = (booked_db, ("Booking ID: 1"%string, "99999999999999999999"%string),
        Raise OverflowError)
  /\ _view_booking_gui strip_blanks int_of_decimal (fun _ => "0.00"%string)
       booked_db "Booking Details:" "99999999999999999999"
     = ("Booking Details:"%string, Raise OverflowError).
Proof. vm_compute. repeat split; reflexivity. Qed.


(** A flight id of twenty digits: the OverflowError of the bind passes the
    handler, no dialog is shown. *)
Example book_flight_gui_overflow :
  _book_flight_gui strip_blanks int_of_decimal today seed_db
    "99999999999999999999" "A. Lee" "1"
  = (seed_db, Raise OverflowError)
  /\ _book_flight_gui strip_blanks int_of_decimal today seed_db "7" "A. Lee" "1"
     = (seed_db, Return (showerror "Booking Failed" "Flight not found.")).
Proof. vm_compute. split; reflexivity. Qed.

Lemma gui_session_keeps_store_sound_witness :
  let s := session strip_blanks int_of_decimal float_of_digits strptime_shape
             [ClickBook today "1" "A. Lee" "150";
              ClickBook today "1" "B. Kim" "-5";
              ClickAddFlight "Rome" "Oslo" "2025-08-01" "09:00" "300" "60";
              ClickBook today "6" "C. Roy" "60";
              ClickCancel "1" false;
              ClickCancel "1" true] seed_db in
  Forall (fun f => 0 <= Flights.seats_available f) (flights s)
  /\ Forall (fun x => 0 < Bookings.num_seats x
                      /\ Bookings.passenger_name x <> EmptyString) (bookings s).
Proof.
  cbv zeta. rewrite !Forall_forall.
  apply (gui_session_keeps_store_sound strip_blanks int_of_decimal float_of_digits
           strptime_shape).
  - intros f Hin. vm_compute in Hin.
    repeat (destruct Hin as [<-|Hin]; [cbn; lia|]). destruct Hin.
  - intros x [].
Defined.

Example gui_session_run :
  map (fun f => (Flights.flight_id f, Flights.seats_available f))
      (flights (session strip_blanks int_of_decimal float_of_digits strptime_shape
                  [ClickBook today "1" "A. Lee" "150";
                   ClickBook today "1" "B. Kim" "-5";
                   ClickAddFlight "Rome" "Oslo" "2025-08-01" "09:00" "300" "60";
                   ClickBook today "6" "C. Roy" "60";
                   ClickCancel "1" false;
                   ClickCancel "1" true] seed_db))
  = [(1, 150); (2, 80); (3, 100); (4, 200); (5, 120); (6, 0)].
Proof. vm_compute. reflexivity. Qed.

Lemma search_gui_shows_matches_witness :
  let r := _search_flights_gui strip_blanks strptime_shape seed_db []
             " new " "" "2025-07-10" in
  (fst r = []
   /\ snd r = Some (showerror "Invalid Input"
                              "Please enter date in YYYY-MM-DD format.")
   /\ strip_blanks "2025-07-10" <> EmptyString
   /\ _is_valid_date strptime_shape (strip_blanks "2025-07-10") = false)
  \/ (fst r = search_flights seed_db (strip_blanks " new ") (strip_blanks "")
                             (strip_blanks "2025-07-10")
      /\ (fst r = [] <->
          snd r = Some (showinfo "Search Results"
                                 "No flights found matching your criteria."))
      /\ (fst r <> [] <-> snd r = None)
      /\ forall f, In f (fst r) ->
           In f (flights seed_db)
           /\ (strip_blanks "2025-07-10" <> EmptyString ->
               Flights.flight_date f = strip_blanks "2025-07-10"
               /\ _is_valid_date strptime_shape (strip_blanks "2025-07-10") = true)).
Proof.
  exact (search_gui_shows_matches strip_blanks strptime_shape seed_db []
           " new "%string ""%string "2025-07-10"%string _ _ eq_refl).
Defined.

Example search_gui_run :
  map Flights.flight_id
      (fst (_search_flights_gui strip_blanks strptime_shape seed_db []
              " new " "" "2025-07-10"))
  = [4]
  /\ _search_flights_gui strip_blanks strptime_shape seed_db (flights seed_db)
       "" "" "10 July"
     = (flights seed_db,
        Some (showerror "Invalid Input" "Please enter date in YYYY-MM-DD format."))
  /\ _search_flights_gui strip_blanks strptime_shape seed_db (flights seed_db)
       "Oslo" "" ""
     = ([], Some (showinfo "Search Results"
                           "No flights found matching your criteria.")).
Proof. vm_compute. repeat split; reflexivity. Qed.

(** ** Capacity through the GUI *)

Lemma conservation_call_step fid c0 db c :
  match c with
  | AddFlight _ _ _ _ _ _ => True
  | BookOrCancel op => books_no_negative op = true
  end ->
  NoDup (map Bookings.booking_id (bookings db)) ->
  (exists s, seats_of fid db = Some s
             /\ s + booked_seats fid (bookings db) = c0) ->
  NoDup (map Bookings.booking_id (bookings (call_apply db c)))
  /\ exists s, seats_of fid (call_apply db c) = Some s
               /\ s + booked_seats fid (bookings (call_apply db c)) = c0.
Proof.
  intros Hc Hnd Hinv. destruct c as [dep dest day time price seats | op].
  - unfold call_apply.
    destruct (add_flight db dep dest day time price seats) as [d ok] eqn:Hadd.
    apply add_flight_inv in Hadd. cbn [fst].
    destruct Hadd as [[_ [-> _]] | [[_ [-> _]] | [_ [_ [_ ->]]]]];
      [split; assumption | split; assumption|].
    cbn [bookings]. split; [exact Hnd|].
    destruct Hinv as [s [Hs Hsum]]. exists s. split; [|exact Hsum].
    unfold seats_of in *. cbn [flights]. rewrite select_flight_app.
    destruct (select_flight fid (flights db)); [exact Hs | discriminate].
  - exact (conservation_step fid c0 db op Hc Hnd Hinv).
Qed.

Lemma booked_seats_nonneg fid bs :
  (forall x, In x bs -> 0 < Bookings.num_seats x /\ Bookings.passenger_name x <> EmptyString) ->
  0 <= booked_seats fid bs.
Proof.
  induction bs as [|y bs IH]; intros H; cbn [booked_seats fold_right]; [lia|].
  assert (Hy : 0 < Bookings.num_seats y) by (apply H; left; reflexivity).
  assert (Hbs : 0 <= booked_seats fid bs) by (apply IH; intros x Hx; apply H; right; exact Hx).
  unfold booked_seats in Hbs. destruct (Bookings.flight_id y =? fid); lia.
Qed.


